(** * Rocket Race Dashboard (dashboard.py)

    A shallow embedding of the decision logic of [dashboard.py]: the
    three-tier source resolution and the schema normalisation performed by
    [load_race_data], and the analytics computed in [main] (raced/pending
    classification, search, relative performance, "fun facts").

    Modelling conventions.
    - A Python float is represented by the rational it denotes ([Q]), so
      comparisons of floats are exact.  Float arithmetic rounds: its results
      are kept as the operations performed ([Float64]), not as numbers.  A
      pandas NaN / missing cell is [None].
    - Strings are sequences of ASCII characters.
    - A parsed JSON document is abstracted by the observations the code makes
      of it: whether it is a dict, its truthiness, its ["status"] and
      ["results"] entries.  The entries of ["results"] are well-typed
      participant objects whose keys may individually be missing.
    - Writes to the Streamlit sidebar are collected in a log, in order; an
      exception keeps whatever was written before it was raised. *)

From Stdlib Require Import String Ascii List ZArith QArith Lia Bool Arith.
Import ListNotations.

Local Open Scope string_scope.
Local Open Scope list_scope.

(** ** Exceptions, sidebar messages and the effect monad *)

Inductive exn : Type :=
| KeyError
| TypeError
| AttributeError
| ValueError
| FileNotFoundError
| JSONDecodeError
| ParserError.

Inductive result (A : Type) : Type :=
| Ok (a : A)
| Raise (e : exn).
Arguments Ok {A} a.
Arguments Raise {A} e.

(** [data_source] of [load_race_data]. *)
Inductive DataSource : Type :=
| Unknown                           (* "Unknown" *)
| LatestResults                     (* "Latest Results (Real-time)" *)
| BackupFile (basename : string)    (* f"Backup File: {basename}" *)
| CSVParticipantList.               (* 'CSV participant list' *)

(** The messages [load_race_data] writes, one constructor per call site. *)
Inductive Diag : Type :=
| LoadingRealtime                          (* line 78 *)
| NoRaceCompletedYet                       (* line 80 *)
| ErrorReadingLatest (e : exn)             (* line 82 *)
| FoundRaceFiles (n : nat)                 (* line 87 *)
| Loading (file : string)                  (* line 92 *)
| LoadedRaceData (n : nat) (src : DataSource) (* line 130 *)
| NoRaceFiles                              (* line 162 *)
| ErrorLoadingData (e : exn).              (* lines 166-167 *)

(** A computation writes messages and then returns or raises. *)
Definition IO (A : Type) : Type := (list Diag * result A)%type.

Definition ret {A} (a : A) : IO A := ([], Ok a).

Definition bind {A B} (c : IO A) (k : A -> IO B) : IO B :=
  match c with
  | (w, Ok a) => let (w', r) := k a in (w ++ w', r)
  | (w, Raise e) => (w, Raise e)
  end.

Definition write (d : Diag) : IO unit := ([d], Ok tt).

Definition lift {A} (r : result A) : IO A := ([], r).

(** [try: c except Exception as e: h e] *)
Definition try_except {A} (c : IO A) (h : exn -> IO A) : IO A :=
  match c with
  | (w, Ok a) => (w, Ok a)
  | (w, Raise e) => let (w', r) := h e in (w ++ w', r)
  end.

Declare Scope io_scope.
Delimit Scope io_scope with io.
Notation "x <- c ;; k" := (bind c (fun x => k))
  (at level 61, c at next level, right associativity) : io_scope.
Notation "c ;;; k" := (bind c (fun _ => k))
  (at level 61, right associativity) : io_scope.
Local Open Scope io_scope.

(** ** Python string helpers *)

(** [s.replace(c, '')] for a one-character pattern [c]. *)
Fixpoint str_remove (c : ascii) (s : string) : string :=
  match s with
  | EmptyString => EmptyString
  | String a s' =>
      if Ascii.eqb a c then str_remove c s' else String a (str_remove c s')
  end.

(** Characters for which [str.isspace] holds (ASCII). *)
Definition isspace (a : ascii) : bool :=
  let n := nat_of_ascii a in
  ((9 <=? n)%nat && (n <=? 13)%nat) || ((28 <=? n)%nat && (n <=? 32)%nat).

Fixpoint lstrip (s : string) : string :=
  match s with
  | EmptyString => EmptyString
  | String a s' => if isspace a then lstrip s' else s
  end.

Fixpoint rstrip (s : string) : string :=
  match s with
  | EmptyString => EmptyString
  | String a s' =>
      let t := rstrip s' in
      if isspace a && String.eqb t EmptyString then EmptyString
      else String a t
  end.

(** [s.strip()] *)
Definition strip (s : string) : string := rstrip (lstrip s).

(** [s.endswith(suf)] *)
Definition endswith (suf s : string) : bool :=
  String.eqb
    (substring (String.length s - String.length suf) (String.length suf) s) suf
  && (String.length suf <=? String.length s)%nat.

(** [os.path.basename] *)
Fixpoint basename_from (acc p : string) : string :=
  match p with
  | EmptyString => acc
  | String a p' =>
      if Ascii.eqb a "/"%char then basename_from EmptyString p'
      else basename_from (acc ++ String a EmptyString) p'
  end.

Definition basename (p : string) : string := basename_from EmptyString p.

(** ** Raw data: the files the code reads *)

(** One entry of ["results"]; a key that is missing is [None]. *)
Record RawRecord : Type := {
  username : option string;
  fullName : option string;
  raceTime : option Q;
  averageSpeed : option Q;
  boostsUsed : option Z;
  collisions : option Z;
  distanceCovered : option Q;
  rank : option Z
}.

(** A JSON object as the code observes it.  [other_keys] lists the keys
    besides ["status"] and ["results"] (race date, winner, ...). *)
Record RaceData : Type := {
  status : option string;
  results : option (list RawRecord);
  other_keys : list string
}.

(** What [json.load] returns: a dict, or any other JSON value, of which only
    the truthiness matters. *)
Inductive Json : Type :=
| JDict (d : RaceData)
| JOther (truthy : bool).

(** One row of the participant export; an empty cell is [None]. *)
Record CsvRow : Type := {
  csv_Username : option string;
  csv_Full_Name : option string
}.

Inductive Content : Type :=
| Malformed
| JsonText (v : Json)
| CsvText (rows : list CsvRow)
| CsvOtherUsernames.

Record File : Type := {
  path : string;
  ctime : Q;
  content : Content
}.

(** The working directory, in the order the operating system lists it. *)
Definition FileSystem : Type := list File.

Definition open (fs : FileSystem) (p : string) : option File :=
  find (fun f => String.eqb (path f) p) fs.

(** [os.path.exists] *)
Definition exists_ (fs : FileSystem) (p : string) : bool :=
  match open fs p with Some _ => true | None => false end.

(** [json.load] of an opened file *)
Definition json_load (f : File) : result Json :=
  match content f with
  | JsonText v => Ok v
  | _ => Raise JSONDecodeError
  end.

Definition json_load_path (fs : FileSystem) (p : string) : result Json :=
  match open fs p with
  | Some f => json_load f
  | None => Raise FileNotFoundError
  end.

(** Whether the [.str] accessor accepts the Username column of a table
    that pandas read as text: a table with rows none of which has a
    username is read as a column of NaN, which is not of string type. *)
Definition usernames_are_text (rows : list CsvRow) : bool :=
  match rows with
  | [] => true
  | _ :: _ =>
      existsb (fun r => match csv_Username r with
                        | Some _ => true
                        | None => false
                        end) rows
  end.

(** [pd.read_csv] followed by the selections of lines 138-139 up to the
    [.str] accessor.  [CsvText] is a table with the columns 'Username' and
    'Full Name' whose usernames pandas reads as text; [CsvOtherUsernames]
    is such a table whose Username cells are all numbers or booleans, which
    pandas reads as a numeric (or boolean) column.  The accessor raises
    [AttributeError] on a column that is not of string type; on any other
    content the read or the selection raises (reported here as
    [ParserError]). *)
Definition read_csv (fs : FileSystem) (p : string) : result (list CsvRow) :=
  match open fs p with
  | Some f =>
      match content f with
      | CsvText rows =>
          if usernames_are_text rows then Ok rows else Raise AttributeError
      | CsvOtherUsernames => Raise AttributeError
      | _ => Raise ParserError
      end
  | None => Raise FileNotFoundError
  end.

(** [fnmatch(name, 'rocket_race_results_*.json')] *)
Definition race_file_prefix : string := "rocket_race_results_".
Definition race_file_suffix : string := ".json".

Definition matches_race_pattern (name : string) : bool :=
  prefix race_file_prefix name
  && endswith race_file_suffix name
  && (String.length race_file_prefix + String.length race_file_suffix
      <=? String.length name)%nat.

(** [glob.glob('rocket_race_results_*.json')]: the matching entries, in
    listing order. *)
Definition glob (fs : FileSystem) : list File :=
  filter (fun f => matches_race_pattern (path f)) fs.

(** ** Python built-ins *)

Definition Qltb (x y : Q) : bool := negb (Qle_bool y x).

(** The loop of [max(iterable, key=...)]: the running maximum is replaced
    only by an item whose key is strictly greater. *)
Fixpoint max_loop {A} (key : A -> Q) (best : A) (l : list A) : A :=
  match l with
  | [] => best
  | x :: l' => if Qltb (key best) (key x) then max_loop key x l'
               else max_loop key best l'
  end.

Definition py_max {A} (key : A -> Q) (l : list A) : result A :=
  match l with
  | [] => Raise ValueError
  | x :: l' => Ok (max_loop key x l')
  end.

(** Truthiness of a dict: it has at least one key. *)
Definition dict_truthy (d : RaceData) : bool :=
  match status d, results d, other_keys d with
  | None, None, [] => false
  | _, _, _ => true
  end.

Definition truthy (v : Json) : bool :=
  match v with
  | JDict d => dict_truthy d
  | JOther b => b
  end.

(** Truthiness of [race_data], which starts as [None]. *)
Definition truthy_opt (v : option Json) : bool :=
  match v with
  | Some j => truthy j
  | None => false
  end.

(** [v.get('status')] *)
Definition get_status (v : Json) : result (option string) :=
  match v with
  | JDict d => Ok (status d)
  | JOther _ => Raise AttributeError
  end.

(** ['results' in v], for a dict [v] *)
Definition has_results (v : Json) : bool :=
  match v with
  | JDict d => match results d with Some _ => true | None => false end
  | JOther _ => false
  end.

(** [v['results']] *)
Definition get_results (v : Json) : result (list RawRecord) :=
  match v with
  | JDict d =>
      match results d with
      | Some rs => Ok rs
      | None => Raise KeyError
      end
  | JOther _ => Raise TypeError
  end.

Definition is_completed (st : option string) : bool :=
  match st with
  | Some s => String.eqb s "completed"
  | None => false
  end.

(** ** The DataFrame *)

Inductive Column : Type :=
| col_Username            (* 'Username' *)
| col_Full_Name           (* 'Full Name' *)
| col_Race_Time           (* 'Race Time (s)' *)
| col_Speed               (* 'Speed (km/h)' *)
| col_Boosts_Used         (* 'Boosts Used' *)
| col_Collisions          (* 'Collisions' *)
| col_Distance_Covered    (* 'Distance Covered (km)' *)
| col_Rank.               (* 'Rank' *)

Definition Column_eqb (c d : Column) : bool :=
  match c, d with
  | col_Username, col_Username
  | col_Full_Name, col_Full_Name
  | col_Race_Time, col_Race_Time
  | col_Speed, col_Speed
  | col_Boosts_Used, col_Boosts_Used
  | col_Collisions, col_Collisions
  | col_Distance_Covered, col_Distance_Covered
  | col_Rank, col_Rank => true
  | _, _ => false
  end.

Definition all_columns : list Column :=
  [col_Username; col_Full_Name; col_Race_Time; col_Speed; col_Boosts_Used;
   col_Collisions; col_Distance_Covered; col_Rank].

(** One row; [None] is NaN. *)
Record Row : Type := {
  Username : option string;
  Full_Name : option string;
  Race_Time_s : option Q;
  Speed_kmh : option Q;
  Boosts_Used : option Z;
  Collisions : option Z;
  Distance_Covered_km : option Q;
  Rank : option Z
}.

(** Rows are kept in index order (a [RangeIndex]); a column that is not in
    [columns] cannot be selected. *)
Record DataFrame : Type := {
  columns : list Column;
  rows : list Row
}.

(** [pd.DataFrame()] *)
Definition empty_frame : DataFrame := {| columns := []; rows := [] |}.

Definition has_column (c : Column) (df : DataFrame) : bool :=
  existsb (Column_eqb c) (columns df).

(** [len(df)] *)
Definition len (df : DataFrame) : nat := List.length (rows df).

(** [df.empty]: some axis has length zero. *)
Definition df_empty (df : DataFrame) : bool :=
  match columns df, rows df with
  | _ :: _, _ :: _ => false
  | _, _ => true
  end.

Definition is_some {A} (o : option A) : bool :=
  match o with Some _ => true | None => false end.

(** Whether a raw record carries the key that is renamed to column [c]. *)
Definition has_key (c : Column) (r : RawRecord) : bool :=
  match c with
  | col_Username => is_some (username r)
  | col_Full_Name => is_some (fullName r)
  | col_Race_Time => is_some (raceTime r)
  | col_Speed => is_some (averageSpeed r)
  | col_Boosts_Used => is_some (boostsUsed r)
  | col_Collisions => is_some (collisions r)
  | col_Distance_Covered => is_some (distanceCovered r)
  | col_Rank => is_some (rank r)
  end.

(** The renaming table of lines 103-112, applied to one record. *)
Definition rename (r : RawRecord) : Row :=
  {| Username := username r;
     Full_Name := fullName r;
     Race_Time_s := raceTime r;
     Speed_kmh := averageSpeed r;
     Boosts_Used := boostsUsed r;
     Collisions := collisions r;
     Distance_Covered_km := distanceCovered r;
     Rank := rank r |}.

(** [pd.DataFrame(race_data['results']).rename(columns=...)]: one row per
    record, in order; a column for every key that occurs in some record; a
    record without the key gets NaN. *)
Definition frame_of_results (rs : list RawRecord) : DataFrame :=
  {| columns := filter (fun c => existsb (has_key c) rs) all_columns;
     rows := map rename rs |}.

Definition set_Username (u : option string) (r : Row) : Row :=
  {| Username := u;
     Full_Name := Full_Name r;
     Race_Time_s := Race_Time_s r;
     Speed_kmh := Speed_kmh r;
     Boosts_Used := Boosts_Used r;
     Collisions := Collisions r;
     Distance_Covered_km := Distance_Covered_km r;
     Rank := Rank r |}.

(** Line 115 on one row: [.str.replace('@', '', regex=False)]. *)
Definition clean_username (r : Row) : Row :=
  set_Username (option_map (str_remove "@"%char) (Username r)) r.

(** Line 115: selecting ['Username'] raises [KeyError] without the column. *)
Definition clean_usernames (df : DataFrame) : result DataFrame :=
  if has_column col_Username df then
    Ok {| columns := columns df; rows := map clean_username (rows df) |}
  else Raise KeyError.

(** Lines 138-147 on the row at 1-based position [i]. *)
Definition placeholder_row (i : nat) (r : CsvRow) : Row :=
  let u := option_map strip (csv_Username r) in
  {| Username := u;
     Full_Name := match csv_Full_Name r with Some n => Some n | None => u end;
     Race_Time_s := None;
     Speed_kmh := None;
     Boosts_Used := Some 0%Z;
     Collisions := Some 0%Z;
     Distance_Covered_km := None;
     Rank := Some (Z.of_nat i) |}.

Fixpoint number_rows (i : nat) (rs : list CsvRow) : list Row :=
  match rs with
  | [] => []
  | r :: rs' => placeholder_row i r :: number_rows (S i) rs'
  end.

Definition participants_frame (rs : list CsvRow) : DataFrame :=
  {| columns := all_columns; rows := number_rows 1 rs |}.

(** ** load_race_data *)

Definition latest_results_file : string := "latest_race_results.json".
Definition participants_csv : string :=
  "instaExport-2025-08-16T08_51_29.380Z.csv".

(** Method 1 (lines 68-82): the dedicated latest results file. *)
Definition method1 (fs : FileSystem) : IO (option Json * DataSource) :=
  if exists_ fs latest_results_file then
    try_except
      (latest_data <- lift (json_load_path fs latest_results_file) ;;
       st <- lift (get_status latest_data) ;;
       if is_completed st && has_results latest_data then
         write LoadingRealtime ;;; ret (Some latest_data, LatestResults)
       else
         write NoRaceCompletedYet ;;; ret (None, Unknown))
      (fun e => write (ErrorReadingLatest e) ;;; ret (None, Unknown))
  else ret (None, Unknown).

(** Method 2 (lines 84-96): fall back to the race result files. *)
Definition method2 (fs : FileSystem) (st : option Json * DataSource)
  : IO (option Json * DataSource) :=
  let (race_data, data_source) := st in
  if negb (truthy_opt race_data) then
    let race_files := glob fs in
    write (FoundRaceFiles (List.length race_files)) ;;;
    match race_files with
    | [] => ret (race_data, data_source)
    | _ :: _ =>
        latest_file <- lift (py_max ctime race_files) ;;
        write (Loading (path latest_file)) ;;;
        v <- lift (json_load latest_file) ;;
        ret (Some v, BackupFile (basename (path latest_file)))
    end
  else ret (race_data, data_source).

(** Lines 65-96: which document, if any, becomes [race_data]. *)
Definition resolve (fs : FileSystem) : IO (option Json * DataSource) :=
  st <- method1 fs ;; method2 fs st.

(** Lines 98-131: the race branch. *)
Definition race_branch (race_data : Json) (data_source : DataSource)
  : IO (DataFrame * DataSource) :=
  rs <- lift (get_results race_data) ;;
  df <- lift (clean_usernames (frame_of_results rs)) ;;
  write (LoadedRaceData (len df) data_source) ;;;
  ret (df, data_source).

(** Lines 133-163: the participant list. *)
Definition csv_branch (fs : FileSystem) : IO (DataFrame * DataSource) :=
  rs <- lift (read_csv fs participants_csv) ;;
  write NoRaceFiles ;;;
  ret (participants_frame rs, CSVParticipantList).

Definition load_race_data_body (fs : FileSystem)
  : IO (DataFrame * DataSource) :=
  st <- resolve fs ;;
  match fst st with
  | Some v => if truthy v then race_branch v (snd st) else csv_branch fs
  | None => csv_branch fs
  end.

(** The whole function: the sidebar log, the returned frame, and the
    [data_source] stored in the session metadata ([None] when the call
    stores none, i.e. when it ends in the handler of lines 165-168). *)
Definition load_race_data (fs : FileSystem)
  : list Diag * (DataFrame * option DataSource) :=
  match load_race_data_body fs with
  | (w, Ok (df, src)) => (w, (df, Some src))
  | (w, Raise e) => (w ++ [ErrorLoadingData e], (empty_frame, None))
  end.

(** ** main: classification of the loaded frame *)

Definition rbind {A B} (r : result A) (k : A -> result B) : result B :=
  match r with
  | Ok a => k a
  | Raise e => Raise e
  end.

Notation "'let!' x ':=' c 'in' k" := (rbind c (fun x => k))
  (at level 10, x name, c at level 100, k at level 200) : io_scope.

(** [df[c]]: the cells of a column, or [KeyError]. *)
Definition getcol {A} (c : Column) (cell : Row -> option A) (df : DataFrame)
  : result (list (option A)) :=
  if has_column c df then Ok (map cell (rows df)) else Raise KeyError.

(** [s.isna().all()] *)
Definition isna_all {A} (s : list (option A)) : bool :=
  forallb (fun x => negb (is_some x)) s.

(** Line 285. *)
Definition has_race_data (df : DataFrame) : result bool :=
  let! s := getcol col_Race_Time Race_Time_s df in
  Ok (negb (isna_all s)).

(** [df.head(n)] *)
Definition head (n : nat) (df : DataFrame) : DataFrame :=
  {| columns := columns df; rows := firstn n (rows df) |}.

(** The two figures [create_ranking_chart] can build: bars of race times
    (x, y, text) or equal-height participant bars (x, text). *)
Inductive Chart : Type :=
| RaceTimesChart (x : list (option string)) (y : list (option Q))
    (text : list (option Z))
| ParticipantsChart (x : list (option string)) (text : list (option Z)).

Definition create_ranking_chart (df : DataFrame) (has_race_data : bool)
  : result Chart :=
  let top_20 := head 20 df in
  let! raced :=
    (if has_race_data then
       let! s := getcol col_Race_Time Race_Time_s df in
       Ok (negb (isna_all s))
     else Ok false) in
  if (raced : bool) then
    let! x := getcol col_Username Username top_20 in
    let! y := getcol col_Race_Time Race_Time_s top_20 in
    let! text := getcol col_Rank Rank top_20 in
    Ok (RaceTimesChart x y text)
  else
    let! x := getcol col_Username Username top_20 in
    let! text := getcol col_Rank Rank top_20 in
    Ok (ParticipantsChart x text).

(** ** Search *)

(** [Series.str.contains(pat, case=False, na=False)] compiles [pat] as a
    regular expression ([regex=True] is the default) with [re.IGNORECASE].
    The model covers the patterns made of ordinary characters and the
    wildcard ["."]; [re_compile] is [None] on every other pattern. *)
Inductive Atom : Type :=
| AnyChar
| Lit (c : ascii).

Definition regex_special (c : ascii) : bool :=
  existsb (Ascii.eqb c)
    (list_ascii_of_string ".^$*+?{}[]\|()").

Fixpoint re_compile (pat : string) : option (list Atom) :=
  match pat with
  | EmptyString => Some []
  | String c pat' =>
      match re_compile pat' with
      | Some re =>
          if Ascii.eqb c "."%char then Some (AnyChar :: re)
          else if regex_special c then None
          else Some (Lit c :: re)
      | None => None
      end
  end.

(** ASCII lower-casing, as [re.IGNORECASE] compares. *)
Definition lower (c : ascii) : ascii :=
  let n := nat_of_ascii c in
  if ((65 <=? n)%nat && (n <=? 90)%nat) then ascii_of_nat (n + 32) else c.

Definition atom_matches (a : Atom) (c : ascii) : bool :=
  match a with
  | AnyChar => negb (Ascii.eqb c "010"%char)
  | Lit l => Ascii.eqb (lower l) (lower c)
  end.

Fixpoint match_here (re : list Atom) (s : string) : bool :=
  match re, s with
  | [], _ => true
  | a :: re', String c s' => atom_matches a c && match_here re' s'
  | _ :: _, EmptyString => false
  end.

(** [re.search]: a match starting at some position. *)
Fixpoint re_search (re : list Atom) (s : string) : bool :=
  match_here re s ||
  match s with
  | EmptyString => false
  | String _ s' => re_search re s'
  end.

Definition str_contains (pat : string) (s : list (option string))
  : option (list bool) :=
  match re_compile pat with
  | Some re =>
      Some (map (fun x => match x with
                          | Some u => re_search re u
                          | None => false        (* na=False *)
                          end) s)
  | None => None
  end.

(** [rows[mask]] *)
Fixpoint boolean_index {A} (l : list A) (mask : list bool) : list A :=
  match l, mask with
  | x :: l', b :: mask' =>
      if b then x :: boolean_index l' mask' else boolean_index l' mask'
  | _, _ => []
  end.

(** [df[df['Username'].str.contains(q, case=False, na=False)]], the
    expression of lines 297, 351, 364 and 563. *)
Definition search (df : DataFrame) (q : string) : option DataFrame :=
  match str_contains q (map Username (rows df)) with
  | Some mask =>
      Some {| columns := columns df; rows := boolean_index (rows df) mask |}
  | None => None
  end.

(** Lines 560-566: the participant table's filter; [show_top] is [None] for
    "All". *)
Definition participants_filter (df : DataFrame) (search_term : string)
  (show_top : option nat) : option DataFrame :=
  let filtered_df :=
    if String.eqb search_term EmptyString then Some df
    else search df search_term in
  match filtered_df, show_top with
  | Some f, Some n => Some (head n f)
  | Some f, None => Some f
  | None, _ => None
  end.

(** ** Relative performance (lines 331-344) *)

Local Open Scope Q_scope.

(** The values of a series that are not NaN. *)
Fixpoint present {A} (s : list (option A)) : list A :=
  match s with
  | [] => []
  | Some x :: s' => x :: present s'
  | None :: s' => present s'
  end.

Definition Qsum (l : list Q) : Q := fold_right Qplus 0 l.

Definition Qnat (n : nat) : Q := inject_Z (Z.of_nat n).

(** A float64 computation, kept as the operations the code performs.  The
    number the code obtains is the IEEE result of these operations, which
    rounds at every step (and, for a mean or a sum, depends on the order in
    which pandas adds); it is not computed here. *)
Inductive Float64 : Type :=
| FVal (q : Q)               (* a float held by the frame *)
| FInt (z : Z)               (* an integer, converted *)
| FMean (xs : list Q)        (* [Series.mean] of these values *)
| FSum (xs : list Q)         (* [Series.sum] of these values *)
| FSub (a b : Float64)
| FDiv (a b : Float64)
| FMul (a b : Float64).

(** [s.mean()]: NaN cells are skipped; the mean of no value is NaN. *)
Definition mean (s : list (option Q)) : option Float64 :=
  match present s with
  | [] => None
  | xs => Some (FMean xs)
  end.

(** [s > t] on cells: a comparison with NaN is false. *)
Definition cell_gt (x t : option Q) : bool :=
  match x, t with
  | Some a, Some b => Qltb b a
  | _, _ => false
  end.

(** [(s > t).sum()] *)
Definition count_gt (s : list (option Q)) (t : option Q) : nat :=
  List.length (filter (fun x => cell_gt x t) s).

(** Float subtraction of a float from a cell; NaN propagates. *)
Definition cell_sub (x : option Q) (y : option Float64) : option Float64 :=
  match x, y with
  | Some a, Some b => Some (FSub (FVal a) b)
  | _, _ => None
  end.

(** What one search card shows besides the record. *)
Record Performance : Type := {
  time_diff : option Float64;
  faster_than : Float64
}.

(** Lines 332-335, for one [user] of the search results. *)
Definition performance_comparison (df : DataFrame) (user : Row)
  : option Performance :=
  if (1 <? len df)%nat then
    let times := map Race_Time_s (rows df) in
    let avg_time := mean times in
    Some {| time_diff := cell_sub (Race_Time_s user) avg_time;
            faster_than :=
              FMul (FDiv (FInt (Z.of_nat (count_gt times (Race_Time_s user))))
                         (FInt (Z.of_nat (len df))))
                   (FInt 100) |}
  else None.

(** What the "Find Your Rank" box renders (lines 295-357). *)
Inductive SearchView : Type :=
| NoSearch
| SearchResults (cards : list (Row * option Performance))
| NoRacerFound
| ParticipantFound (users : list Row)
| NoParticipantFound.

(** The columns a search card formats (lines 303-329). *)
Definition card_columns : list Column :=
  [col_Rank; col_Username; col_Full_Name; col_Race_Time; col_Speed;
   col_Boosts_Used; col_Collisions].

Definition has_columns (cs : list Column) (df : DataFrame) : bool :=
  forallb (fun c => has_column c df) cs.

(** Lines 295-357.  The outer [option] is [None] only when the query is
    outside the modelled pattern language. *)
Definition find_your_rank (df : DataFrame) (has_race_data : bool)
  (search_username : string) : option (result SearchView) :=
  if String.eqb search_username EmptyString then Some (Ok NoSearch)
  else
    match search df search_username with
    | None => None
    | Some search_results =>
        Some
          (if has_race_data then
             match rows search_results with
             | [] => Ok NoRacerFound
             | users =>
                 if has_columns card_columns df then
                   Ok (SearchResults
                         (map (fun user =>
                                 (user, performance_comparison df user))
                              users))
                 else Raise KeyError
             end
           else
             match rows search_results with
             | [] => Ok NoParticipantFound
             | users =>
                 if has_columns [col_Username; col_Full_Name; col_Rank] df
                 then Ok (ParticipantFound users)
                 else Raise KeyError
             end)
    end.

(** ** Fun facts (lines 579-606) *)

(** The scan of [idxmax]: the position of the first occurrence of the
    greatest value that is not NaN. *)
Fixpoint idxmax_loop (best_i : nat) (best : Q) (i : nat) (s : list (option Q))
  : nat :=
  match s with
  | [] => best_i
  | Some x :: s' =>
      if Qltb best x then idxmax_loop i x (S i) s'
      else idxmax_loop best_i best (S i) s'
  | None :: s' => idxmax_loop best_i best (S i) s'
  end.

Fixpoint idxmax_from (i : nat) (s : list (option Q)) : result nat :=
  match s with
  | [] => Raise ValueError
  | Some x :: s' => Ok (idxmax_loop i x (S i) s')
  | None :: s' => idxmax_from (S i) s'
  end.

(** [s.idxmax()]; raises on an empty or all-NaN series. *)
Definition idxmax (s : list (option Q)) : result nat := idxmax_from 0 s.

(** [df.loc[label]] on a [RangeIndex]. *)
Definition loc (df : DataFrame) (label : nat) : result Row :=
  match nth_error (rows df) label with
  | Some r => Ok r
  | None => Raise KeyError
  end.

Inductive FunFact : Type :=
| MostBoostsUsed
| MostCollisions
| LongestDistance
| HighestSpeed.

Definition fact_column (f : FunFact) : Column :=
  match f with
  | MostBoostsUsed => col_Boosts_Used
  | MostCollisions => col_Collisions
  | LongestDistance => col_Distance_Covered
  | HighestSpeed => col_Speed
  end.

(** The numeric cell a fun fact compares; integer columns compare as
    numbers. *)
Definition fact_value (f : FunFact) (r : Row) : option Q :=
  match f with
  | MostBoostsUsed => option_map inject_Z (Boosts_Used r)
  | MostCollisions => option_map inject_Z (Collisions r)
  | LongestDistance => Distance_Covered_km r
  | HighestSpeed => Speed_kmh r
  end.

(** [df.loc[df[column].idxmax()]] *)
Definition fun_fact (f : FunFact) (df : DataFrame) : result Row :=
  let! s := getcol (fact_column f) (fact_value f) df in
  let! i := idxmax s in
  loc df i.

Definition fastest_booster : DataFrame -> result Row := fun_fact MostBoostsUsed.
Definition crash_king : DataFrame -> result Row := fun_fact MostCollisions.
Definition distance_leader : DataFrame -> result Row := fun_fact LongestDistance.
Definition speed_demon : DataFrame -> result Row := fun_fact HighestSpeed.

(** ** Properties the statements below are phrased with *)

(** The race-tier normalisation of one record: rename, then clean. *)
Definition normalize_record (r : RawRecord) : Row :=
  clean_username (rename r).

(** The three optional numeric fields of a canonical record. *)
Definition raced_row (r : Row) : bool :=
  is_some (Race_Time_s r) && is_some (Speed_kmh r)
  && is_some (Distance_Covered_km r).

Definition pending_row (r : Row) : bool :=
  negb (is_some (Race_Time_s r)) && negb (is_some (Speed_kmh r))
  && negb (is_some (Distance_Covered_km r)).

(** All-or-nothing population of a collection. *)
Definition homogeneous (l : list Row) : bool :=
  forallb raced_row l || forallb pending_row l.

(** The same three fields on a raw record. *)
Definition complete_record (r : RawRecord) : bool :=
  is_some (raceTime r) && is_some (averageSpeed r)
  && is_some (distanceCovered r).

Definition bare_record (r : RawRecord) : bool :=
  negb (is_some (raceTime r)) && negb (is_some (averageSpeed r))
  && negb (is_some (distanceCovered r)).

(** A record with every numeric field of the race schema. *)
Definition well_formed_record (r : RawRecord) : bool :=
  complete_record r && is_some (boostsUsed r) && is_some (collisions r)
  && is_some (rank r).

(** Username normalisation as the specification words it: a leading sigil
    is stripped and surrounding whitespace is trimmed. *)
Definition strip_sigil (s : string) : string :=
  match s with
  | String a s' => if Ascii.eqb a "@"%char then s' else s
  | EmptyString => s
  end.

Definition strip_sigil_and_trim (s : string) : string :=
  strip (strip_sigil (strip s)).

Fixpoint no_sigil (s : string) : bool :=
  match s with
  | EmptyString => true
  | String a s' => negb (Ascii.eqb a "@"%char) && no_sigil s'
  end.

(** Case-insensitive substring test, as the specification words the
    search: [q] occurs in [u] up to the case of letters. *)
Fixpoint prefix_ci (q u : string) : bool :=
  match q, u with
  | EmptyString, _ => true
  | String a q', String b u' => Ascii.eqb (lower a) (lower b) && prefix_ci q' u'
  | String _ _, EmptyString => false
  end.

Fixpoint substring_ci (q u : string) : bool :=
  prefix_ci q u ||
  match u with
  | EmptyString => false
  | String _ u' => substring_ci q u'
  end.

Definition username_contains (q : string) (r : Row) : bool :=
  match Username r with
  | Some u => substring_ci q u
  | None => false
  end.

(** A query without regular-expression syntax. *)
Fixpoint literal_query (q : string) : bool :=
  match q with
  | EmptyString => true
  | String c q' => negb (regex_special c) && literal_query q'
  end.

(** Rows listed by strictly increasing rank. *)
Definition rank_lt (a b : Row) : Prop :=
  match Rank a, Rank b with
  | Some x, Some y => (x < y)%Z
  | _, _ => False
  end.

Definition rank_le (a b : Row) : Prop :=
  match Rank a, Rank b with
  | Some x, Some y => (x <= y)%Z
  | _, _ => False
  end.

Definition ascending_rank (l : list Row) : Prop :=
  forall i j a b, (i < j)%nat ->
    nth_error l i = Some a -> nth_error l j = Some b -> rank_lt a b.

(** The pattern that matches the characters of [q] one by one. *)
Fixpoint lits (q : string) : list Atom :=
  match q with
  | EmptyString => []
  | String c q' => Lit c :: lits q'
  end.

(** A record that finished strictly later than time [t]. *)
Definition slower_than (t : Q) (r : Row) : bool :=
  match Race_Time_s r with
  | Some x => Qltb t x
  | None => false
  end.

(** Among the first [n] cells of a series, position [k] holds the value
    [m], no cell holds more, and every cell before [k] holds less. *)
Definition first_max (s : list (option Q)) (n k : nat) (m : Q) : Prop :=
  nth_error s k = Some (Some m)
  /\ (k < n)%nat
  /\ (forall j v, (j < n)%nat -> nth_error s j = Some (Some v) -> v <= m)
  /\ (forall j v, (j < k)%nat -> nth_error s j = Some (Some v) -> v < m).

(** The backup tier on its own: method 2 entered with no document. *)
Definition backup_tier (fs : FileSystem) : IO (option Json * DataSource) :=
  method2 fs (None, Unknown).

(** ** Sample files and frames *)

Definition completed (rs : list RawRecord) : Json :=
  JDict {| status := Some "completed"; results := Some rs;
           other_keys := ["raceId"] |}.

Definition race_document (rs : list RawRecord) : Json :=
  JDict {| status := None; results := Some rs; other_keys := ["raceId"] |}.

Definition live_file (t : Q) (v : Json) : File :=
  {| path := latest_results_file; ctime := t; content := JsonText v |}.

Definition backup_file (name : string) (t : Q) (v : Json) : File :=
  {| path := name; ctime := t; content := JsonText v |}.

Definition racer (u : string) (time speed : Q) (boosts crashes : Z)
  (dist : Q) (rk : Z) : RawRecord :=
  {| username := Some u; fullName := Some (strip_sigil u);
     raceTime := Some time;
     averageSpeed := Some speed; boostsUsed := Some boosts;
     collisions := Some crashes; distanceCovered := Some dist;
     rank := Some rk |}.

(** The record of the round-trip example; it has no [fullName]. *)
Definition pilot1 : RawRecord :=
  {| username := Some "@pilot1"; fullName := None; raceTime := Some 12.5;
     averageSpeed := Some 40.0; boostsUsed := Some 2%Z;
     collisions := Some 0%Z; distanceCovered := Some 1.2;
     rank := Some 1%Z |}.

Definition pilot1_row : Row :=
  {| Username := Some "pilot1"; Full_Name := None; Race_Time_s := Some 12.5;
     Speed_kmh := Some 40.0; Boosts_Used := Some 2%Z;
     Collisions := Some 0%Z; Distance_Covered_km := Some 1.2;
     Rank := Some 1%Z |}.

Definition ace : RawRecord := racer "@ace" 10 50 3%Z 0%Z 1.5 1%Z.
Definition bob : RawRecord := racer "@bob" 11 45 7%Z 1%Z 1.4 2%Z.
Definition cyd : RawRecord := racer "@cyd" 12 44 7%Z 2%Z 1.3 3%Z.

(** A record whose race time is missing. *)
Definition no_time : RawRecord :=
  {| username := Some "@dnf"; fullName := Some "dnf"; raceTime := None;
     averageSpeed := Some 30; boostsUsed := Some 1%Z; collisions := Some 4%Z;
     distanceCovered := Some 0.5; rank := Some 4%Z |}.

(** Usernames with a sigil inside, and with surrounding blanks. *)
Definition inner_sigil : RawRecord := racer "pi@lot" 13 40 0%Z 0%Z 1.1 5%Z.
Definition padded : RawRecord := racer " ace " 14 39 0%Z 0%Z 1.0 6%Z.

Definition old_race : Json := race_document [bob; ace].

(** A completed live file that has no ["results"] key, next to a newer
    backup. *)
Definition fs_no_results_key : FileSystem :=
  [ live_file 1 (JDict {| status := Some "completed"; results := None;
                          other_keys := ["raceId"] |});
    backup_file "rocket_race_results_1.json" 5 old_race ].

(** A completed live file whose results are empty, next to a backup. *)
Definition fs_empty_results : FileSystem :=
  [ live_file 1 (completed []);
    backup_file "rocket_race_results_1.json" 5 old_race ].

(** A completed live file that is older than the backup beside it. *)
Definition fs_live_and_backup : FileSystem :=
  [ backup_file "rocket_race_results_1.json" 5 old_race;
    live_file 1 (completed [pilot1]) ].

(** A live file that is still running, next to a backup. *)
Definition fs_running : FileSystem :=
  [ live_file 9 (JDict {| status := Some "running"; results := Some [];
                          other_keys := [] |});
    backup_file "rocket_race_results_1.json" 5 old_race ].

Definition fs_pilot1 : FileSystem := [ live_file 1 (completed [pilot1]) ].

(** A live file mixing a complete record and one without a race time. *)
Definition fs_mixed : FileSystem := [ live_file 1 (completed [ace; no_time]) ].

(** Only the participant export. *)
Definition fs_participants : FileSystem :=
  [ {| path := participants_csv; ctime := 0;
       content := CsvText [ {| csv_Username := Some " ace ";
                               csv_Full_Name := None |};
                            {| csv_Username := Some "bob";
                               csv_Full_Name := Some "Bob B" |} ] |} ].

(** Three backups created at the same instant, listed b, a, c. *)
Definition tie_a : File := backup_file "rocket_race_results_a.json" 1 old_race.
Definition tie_b : File := backup_file "rocket_race_results_b.json" 1 old_race.
Definition tie_c : File := backup_file "rocket_race_results_c.json" 1 old_race.
Definition fs_ties : FileSystem := [tie_b; tie_a; tie_c].

Definition file_A : File := backup_file "rocket_race_results_A.json" 1 old_race.
Definition file_B : File := backup_file "rocket_race_results_B.json" 2 old_race.

(** The frame the race branch builds from a list of records. *)
Definition frame (rs : list RawRecord) : DataFrame :=
  {| columns := columns (frame_of_results rs);
     rows := map normalize_record rs |}.

Definition df_podium : DataFrame := frame [ace; bob; cyd].
(** The same racers, listed with rank 3 before rank 2. *)
Definition df_unordered : DataFrame := frame [ace; cyd; bob].
Definition df_single : DataFrame := frame [ace].
Definition df_pending : DataFrame :=
  participants_frame [ {| csv_Username := Some "ace"; csv_Full_Name := None |};
                       {| csv_Username := Some "bob"; csv_Full_Name := None |} ].

(** ** main: the rest of the page *)

(** Lines 320-329: the status shown on a search card.  A comparison with
    a NaN rank is false, so a missing rank ends in the last branch. *)
Inductive Badge : Type :=
| WINNER
| PODIUM
| TOP_10
| TOP_50
| FINISHED.

Definition status_badge (rk : option Z) : Badge :=
  match rk with
  | Some r =>
      if (r =? 1)%Z then WINNER
      else if (r <=? 3)%Z then PODIUM
      else if (r <=? 10)%Z then TOP_10
      else if (r <=? 50)%Z then TOP_50
      else FINISHED
  | None => FINISHED
  end.



Definition Qmin2 (a b : Q) : Q := if Qltb b a then b else a.
Definition Qmax2 (a b : Q) : Q := if Qltb a b then b else a.

(** [s.min()] and [s.max()]: NaN cells are skipped; NaN when nothing is
    left. *)
Definition series_min (s : list (option Q)) : option Q :=
  match present s with
  | [] => None
  | x :: xs => Some (fold_left Qmin2 xs x)
  end.

Definition series_max (s : list (option Q)) : option Q :=
  match present s with
  | [] => None
  | x :: xs => Some (fold_left Qmax2 xs x)
  end.

(** Two's-complement wrap-around of a 64-bit signed integer. *)
Definition wrap_int64 (z : Z) : Z :=
  ((z + 2 ^ 63) mod 2 ^ 64 - 2 ^ 63)%Z.

(** The result of [s.sum()] on a column of integers. *)
Inductive Total : Type :=
| IntTotal (z : Z)
| FloatTotal (e : Float64).

(** [s.sum()] of a column whose cells are 64-bit integers.  Without a
    missing cell the column is of type int64 and the sum wraps around; with
    one, pandas holds the column as float64 and adds the cells that are not
    NaN as floats. *)
Definition series_sum (s : list (option Z)) : Total :=
  if forallb is_some s then
    IntTotal (wrap_int64 (fold_right Z.add 0%Z (present s)))
  else FloatTotal (FSum (map inject_Z (present s))).

(** The race statistics of the sidebar that are computed from the frame
    (lines 383-388). *)
Record RaceStatistics : Type := {
  average_race_time : option Float64;
  fastest_time : option Q;
  total_boosts_used : Total
}.

Definition sidebar_statistics (df : DataFrame) (has_race_data : bool)
  : result (nat * option RaceStatistics) :=
  if has_race_data then
    let! times := getcol col_Race_Time Race_Time_s df in
    let! boosts := getcol col_Boosts_Used Boosts_Used df in
    Ok (len df,
        Some {| average_race_time := mean times;
                fastest_time := series_min times;
                total_boosts_used := series_sum boosts |})
  else Ok (len df, None).

(** Lines 406-420: the record of the winner card, [df.iloc[0]]. *)
Definition winner (df : DataFrame) (has_race_data : bool)
  : result (option Row) :=
  if has_race_data && (0 <? len df)%nat then
    match rows df with
    | r :: _ =>
        if has_columns [col_Username; col_Full_Name; col_Race_Time;
                        col_Speed; col_Boosts_Used; col_Collisions] df
        then Ok (Some r)
        else Raise KeyError
    | [] => Ok None
    end
  else Ok None.

(** [s >= t] and [s <= t] on a cell; false on NaN. *)
Definition cell_ge (x : option Q) (t : Q) : bool :=
  match x with
  | Some a => Qle_bool t a
  | None => false
  end.

Definition cell_le (x : option Q) (t : Q) : bool :=
  match x with
  | Some a => Qle_bool a t
  | None => false
  end.

Definition in_time_range (min_time max_time : Q) (r : Row) : bool :=
  cell_ge (Race_Time_s r) min_time && cell_le (Race_Time_s r) max_time.

(** Lines 529-533: [filtered_df] of the complete results table, for the
    slider values [min_time], [max_time] and the "Show Top" choice
    ([None] for "All"). *)
Definition filtered_df (df : DataFrame) (min_time max_time : Q)
  (show_top : option nat) : result DataFrame :=
  let! times := getcol col_Race_Time Race_Time_s df in
  let mask :=
    map (fun x => cell_ge x min_time && cell_le x max_time) times in
  let filtered :=
    {| columns := columns df; rows := boolean_index (rows df) mask |} in
  match show_top with
  | Some n => Ok (head n filtered)
  | None => Ok filtered
  end.

(** Selecting the columns [cs] of a frame: [KeyError] when one is
    missing. *)
Definition select_columns (cs : list Column) (df : DataFrame) : result unit :=
  if has_columns cs df then Ok tt else Raise KeyError.

(** Lines 242-257: [create_speed_vs_time_scatter].  Plotly Express looks
    up every column it is given in [df.head(50)] and raises [ValueError] for
    a name that is not a column.  The marker sizes are the boost counts, and
    a figure accepts as sizes only numbers that are not negative: a missing
    (NaN) or negative count among these records raises [ValueError] too.
    What the figure draws is not part of the result. *)
Definition scatter_columns : list Column :=
  [col_Race_Time; col_Speed; col_Boosts_Used; col_Rank; col_Username;
   col_Full_Name; col_Collisions].

Definition marker_size_ok (r : Row) : bool :=
  match Boosts_Used r with
  | Some b => (0 <=? b)%Z
  | None => false
  end.

Definition create_speed_vs_time_scatter (df : DataFrame) : result unit :=
  let top_50 := head 50 df in
  if has_columns scatter_columns top_50
     && forallb marker_size_ok (rows top_50)
  then Ok tt
  else Raise ValueError.

(** The statements of the raced page that [main] runs before the fun
    facts (lines 383-547), in order, on a first run (both search boxes
    empty): the sidebar statistics, the winner card, the ranking chart, the
    podium, the scatter plot, the performance breakdown and the complete
    results table.  What these statements draw is not part of the result,
    and the Streamlit widgets are taken not to raise. *)
Definition raced_page (df : DataFrame) : result unit :=
  let! statistics := sidebar_statistics df true in
  let! card := winner df true in
  let! chart := create_ranking_chart df true in
  let! medals := select_columns [col_Rank; col_Username; col_Race_Time] df in
  let! scatter := create_speed_vs_time_scatter df in
  let! breakdown :=
    select_columns [col_Rank; col_Username; col_Race_Time; col_Speed;
                    col_Boosts_Used] df in
  select_columns [col_Rank; col_Username; col_Full_Name; col_Race_Time;
                  col_Speed; col_Boosts_Used; col_Collisions;
                  col_Distance_Covered] df.

(** The same for the pending page (lines 421-576): the ranking chart and
    the two participant tables. *)
Definition pending_page (df : DataFrame) : result unit :=
  let! chart := create_ranking_chart df false in
  select_columns [col_Username; col_Full_Name] df.

(** The fun-facts section as [main] reaches it: not at all on an empty
    frame (line 280); after the classification of line 285 and the
    statements of the page that come before it; and only when
    [has_race_data] (line 579). *)
Definition main_fun_facts (df : DataFrame)
  : result (option (Row * Row * Row * Row)) :=
  if df_empty df then Ok None
  else
    let! raced := has_race_data df in
    if (raced : bool) then
      let! page := raced_page df in
      let! b := fastest_booster df in
      let! c := crash_king df in
      let! d := distance_leader df in
      let! s := speed_demon df in
      Ok (Some (b, c, d, s))
    else
      let! page := pending_page df in
      Ok None.

(** ** Further properties used in statements *)

(** The value of a float computation in exact arithmetic, that is, before
    any rounding. *)
Fixpoint exact_value (e : Float64) : Q :=
  match e with
  | FVal q => q
  | FInt z => inject_Z z
  | FMean xs => Qsum xs / Qnat (List.length xs)
  | FSum xs => Qsum xs
  | FSub a b => exact_value a - exact_value b
  | FDiv a b => exact_value a / exact_value b
  | FMul a b => exact_value a * exact_value b
  end.

(** The labels, heights and captions of the bars of a chart. *)
Definition chart_x (c : Chart) : list (option string) :=
  match c with
  | RaceTimesChart x _ _ => x
  | ParticipantsChart x _ => x
  end.

Definition chart_y (c : Chart) : option (list (option Q)) :=
  match c with
  | RaceTimesChart _ y _ => Some y
  | ParticipantsChart _ _ => None
  end.

Definition chart_text (c : Chart) : list (option Z) :=
  match c with
  | RaceTimesChart _ _ text => text
  | ParticipantsChart _ text => text
  end.

(** A participant export whose usernames are all numbers. *)
Definition fs_numeric_usernames : FileSystem :=
  [ {| path := participants_csv; ctime := 0; content := CsvOtherUsernames |} ].

(** A record without a distance, and one without a boost count. *)
Definition no_distance : RawRecord :=
  {| username := Some "@eve"; fullName := Some "eve"; raceTime := Some 15;
     averageSpeed := Some 33; boostsUsed := Some 1%Z; collisions := Some 0%Z;
     distanceCovered := None; rank := Some 1%Z |}.

Definition no_boosts : RawRecord :=
  {| username := Some "@fay"; fullName := Some "fay"; raceTime := Some 16;
     averageSpeed := Some 32; boostsUsed := None; collisions := Some 0%Z;
     distanceCovered := Some 0.9; rank := Some 4%Z |}.

Definition badge_level (b : Badge) : nat :=
  match b with
  | WINNER => 4
  | PODIUM => 3
  | TOP_10 => 2
  | TOP_50 => 1
  | FINISHED => 0
  end.

Fixpoint all_space (s : string) : bool :=
  match s with
  | EmptyString => true
  | String a s' => isspace a && all_space s'
  end.

(** A string that neither begins nor ends with a blank. *)
Definition trimmed (s : string) : Prop :=
  (forall c t, s = String c t -> isspace c = false)
  /\ (forall t c, s = (t ++ String c EmptyString)%string ->
        isspace c = false).


(** [l] keeps some of the elements of [m], in their order. *)
Inductive sublist {A : Type} : list A -> list A -> Prop :=
| sublist_nil : sublist [] []
| sublist_keep (x : A) (l m : list A) : sublist l m -> sublist (x :: l) (x :: m)
| sublist_skip (x : A) (l m : list A) : sublist l m -> sublist l (x :: m).

Definition lower_string (s : string) : list ascii :=
  map lower (list_ascii_of_string s).

(** What [load_race_data] returns once the participant list is reached
    with the messages [w] already written. *)
Definition csv_outcome (fs : FileSystem) (w : list Diag)
  : list Diag * (DataFrame * option DataSource) :=
  match read_csv fs participants_csv with
  | Ok rs =>
      (w ++ [NoRaceFiles], (participants_frame rs, Some CSVParticipantList))
  | Raise e => (w ++ [ErrorLoadingData e], (empty_frame, None))
  end.

(** A newest backup that does not parse, and one that holds an empty
    object, each beside the participant export. *)
Definition participants_file : File :=
  {| path := participants_csv; ctime := 0;
     content := CsvText [ {| csv_Username := Some " ace ";
                             csv_Full_Name := None |};
                          {| csv_Username := Some "bob";
                             csv_Full_Name := Some "Bob B" |} ] |}.

Definition fs_corrupt_backup : FileSystem :=
  [ backup_file "rocket_race_results_1.json" 5 old_race;
    {| path := "rocket_race_results_2.json"; ctime := 6;
       content := Malformed |};
    participants_file ].

Definition fs_empty_backup : FileSystem :=
  [ backup_file "rocket_race_results_1.json" 5 old_race;
    backup_file "rocket_race_results_2.json" 6
      (JDict {| status := None; results := None; other_keys := [] |});
    participants_file ].

(** A live file that does not parse, beside a backup. *)
Definition fs_corrupt_live : FileSystem :=
  [ {| path := latest_results_file; ctime := 9; content := Malformed |};
    backup_file "rocket_race_results_1.json" 5 old_race ].

(** The number of bars of a chart, and whether it plots race times. *)
Definition chart_bars (c : Chart) : nat :=
  match c with
  | RaceTimesChart x _ _ => List.length x
  | ParticipantsChart x _ => List.length x
  end.

Definition chart_labels (c : Chart) : nat :=
  match c with
  | RaceTimesChart _ _ text => List.length text
  | ParticipantsChart _ text => List.length text
  end.

Definition plots_race_times (c : Chart) : bool :=
  match c with
  | RaceTimesChart _ _ _ => true
  | ParticipantsChart _ _ => false
  end.

(** A race file none of whose records has a race time. *)
Definition no_time_2 : RawRecord :=
  {| username := Some "@late"; fullName := Some "late"; raceTime := None;
     averageSpeed := Some 20; boostsUsed := Some 0%Z; collisions := Some 9%Z;
     distanceCovered := Some 0.2; rank := Some 5%Z |}.

Definition fs_no_times : FileSystem :=
  [ live_file 1 (completed [no_time; no_time_2]) ].

(** * Source resolution *)

Lemma is_completed_iff (st : option string) :
  is_completed st = true <-> st = Some "completed".
Proof.
  destruct st as [s|]; simpl.
  - rewrite String.eqb_eq. split; congruence.
  - split; discriminate.
Qed.

(** Method 1 never raises: it yields the live document or nothing. *)
Lemma method1_spec (fs : FileSystem) :
  match open fs latest_results_file with
  | Some f =>
      match content f with
      | JsonText v =>
          match get_status v with
          | Ok st =>
              if is_completed st && has_results v
              then method1 fs = ([LoadingRealtime], Ok (Some v, LatestResults))
              else method1 fs = ([NoRaceCompletedYet], Ok (None, Unknown))
          | Raise e =>
              method1 fs = ([ErrorReadingLatest e], Ok (None, Unknown))
          end
      | _ =>
          method1 fs
          = ([ErrorReadingLatest JSONDecodeError], Ok (None, Unknown))
      end
  | None => method1 fs = ([], Ok (None, Unknown))
  end.
Proof.
  unfold method1, exists_, json_load_path, json_load.
  destruct (open fs latest_results_file) as [f|]; [|reflexivity].
  destruct (content f) as [|v|rs|]; try reflexivity.
  destruct v as [d|b]; simpl; [|reflexivity].
  destruct (is_completed (status d) && _); reflexivity.
Qed.

Lemma has_results_truthy (v : Json) : has_results v = true -> truthy v = true.
Proof.
  destruct v as [d|b]; simpl; [|discriminate].
  unfold dict_truthy. destruct (results d); [|discriminate].
  destruct (status d); reflexivity.
Qed.

(** The backup tier yields a backup document, nothing, or an exception. *)
Lemma backup_tier_cases (fs : FileSystem) :
  (exists w v name, backup_tier fs = (w, Ok (Some v, BackupFile name)))
  \/ (exists w, backup_tier fs = (w, Ok (None, Unknown)))
  \/ (exists w e, backup_tier fs = (w, Raise e)).
Proof.
  unfold backup_tier, method2. simpl.
  destruct (glob fs) as [|x l] eqn:E; simpl.
  - right; left; eauto.
  - destruct (json_load (max_loop ctime x l)) as [v|e]; simpl.
    + left; eauto.
    + right; right; eauto.
Qed.

Lemma backup_tier_log (fs : FileSystem) :
  exists rest,
    fst (backup_tier fs) = FoundRaceFiles (List.length (glob fs)) :: rest.
Proof.
  unfold backup_tier, method2. simpl.
  destruct (glob fs) as [|x l]; simpl.
  - eauto.
  - destruct (json_load (max_loop ctime x l)); simpl; eauto.
Qed.

(** After a first tier that yields nothing, resolution is the backup
    tier. *)
Lemma resolve_falls_through (fs : FileSystem) (w : list Diag) :
  method1 fs = (w, Ok (None, Unknown)) ->
  resolve fs = (w ++ fst (backup_tier fs), snd (backup_tier fs)).
Proof.
  intros H. unfold resolve, bind. rewrite H. fold (backup_tier fs).
  destruct (backup_tier fs); reflexivity.
Qed.

Lemma resolve_live (fs : FileSystem) (v : Json) :
  method1 fs = ([LoadingRealtime], Ok (Some v, LatestResults)) ->
  has_results v = true ->
  resolve fs = ([LoadingRealtime], Ok (Some v, LatestResults)).
Proof.
  intros H Hr. unfold resolve, bind. rewrite H.
  unfold method2. simpl. rewrite (has_results_truthy v Hr). reflexivity.
Qed.

(** What [load_race_data] stores as [data_source] is what the race
    branch was entered with. *)
Lemma race_branch_source (v : Json) (src : DataSource) (w : list Diag)
  (df : DataFrame) (src' : DataSource) :
  race_branch v src = (w, Ok (df, src')) -> src' = src.
Proof.
  unfold race_branch.
  destruct (get_results v) as [rs|e]; simpl; [|discriminate].
  destruct (clean_usernames (frame_of_results rs)) as [d|e]; simpl;
    [|discriminate].
  intros H. inversion H. reflexivity.
Qed.

(** C1 (amended).  A live results file that parses, has status
    "completed" and carries a "results" key is the resolved source, whatever
    else the directory holds and whatever the creation times are: no backup
    is consulted and [load_race_data] never reports another source.  A live
    file that parses with any other status makes method 1 end quietly
    (it does not raise) and resolution continues with the backup tier. *)
Theorem live_tier_precedence (fs : FileSystem) (f : File) (v : Json) :
  open fs latest_results_file = Some f ->
  content f = JsonText v ->
  (get_status v = Ok (Some "completed") -> has_results v = true ->
   resolve fs = ([LoadingRealtime], Ok (Some v, LatestResults))
   /\ forall src, snd (snd (load_race_data fs)) = Some src ->
                  src = LatestResults)
  /\ (get_status v <> Ok (Some "completed") ->
      exists d,
        method1 fs = ([d], Ok (None, Unknown))
        /\ resolve fs = (d :: fst (backup_tier fs), snd (backup_tier fs))
        /\ exists rest,
             fst (backup_tier fs)
             = FoundRaceFiles (List.length (glob fs)) :: rest).
Proof.
  intros Hopen Hcontent.
  pose proof (method1_spec fs) as M. rewrite Hopen, Hcontent in M.
  split.
  - intros Hst Hres. rewrite Hst, Hres in M. simpl in M.
    pose proof (resolve_live fs v M Hres) as R. split; [exact R|].
    intros src. unfold load_race_data, load_race_data_body, bind.
    rewrite R. simpl. rewrite (has_results_truthy v Hres).
    destruct (race_branch v LatestResults) as [w [[df s]|e]] eqn:B; simpl.
    + intros H. inversion H. subst s.
      exact (race_branch_source _ _ _ _ _ B).
    + discriminate.
  - intros Hst.
    assert (exists d, method1 fs = ([d], Ok (None, Unknown))) as [d Hd].
    { destruct (get_status v) as [st|e].
      - destruct (is_completed st) eqn:C.
        + apply is_completed_iff in C. congruence.
        + simpl in M. eauto.
      - eauto. }
    exists d. split; [exact Hd|]. split.
    + exact (resolve_falls_through fs [d] Hd).
    + apply backup_tier_log.
Qed.

(** A completed live file created before the backup beside it is still the
    resolved source. *)
Lemma live_tier_precedence_witness :
  resolve fs_live_and_backup
  = ([LoadingRealtime], Ok (Some (completed [pilot1]), LatestResults)).
Proof.
  exact (proj1 (proj1 (live_tier_precedence fs_live_and_backup
                         (live_file 1 (completed [pilot1]))
                         (completed [pilot1]) eq_refl eq_refl)
                      eq_refl eq_refl)).
Defined.

(** A live file that parses and has status "completed" but no "results"
    key is passed over: the backup is loaded. *)
Lemma completed_without_results_key_uses_backup :
  exists f v,
    open fs_no_results_key latest_results_file = Some f
    /\ content f = JsonText v
    /\ get_status v = Ok (Some "completed")
    /\ resolve fs_no_results_key
       = ([NoRaceCompletedYet; FoundRaceFiles 1;
           Loading "rocket_race_results_1.json"],
          Ok (Some old_race, BackupFile "rocket_race_results_1.json"))
    /\ snd (snd (load_race_data fs_no_results_key))
       = Some (BackupFile "rocket_race_results_1.json").
Proof.
  eexists. eexists. repeat split; reflexivity.
Qed.

(** A live file whose status is "running" leaves the choice to the backup
    tier, although it was created after the backup. *)
Example running_live_file_falls_through :
  resolve fs_running
  = ([NoRaceCompletedYet; FoundRaceFiles 1;
      Loading "rocket_race_results_1.json"],
     Ok (Some old_race, BackupFile "rocket_race_results_1.json")).
Proof. reflexivity. Qed.

(** C2 (amended).  The live results file is the resolved source exactly
    when it parses to an object whose status is "completed" and which has a
    "results" key; nothing is required of the results themselves, so an
    empty results list does not make resolution fall through. *)
Theorem live_tier_eligibility (fs : FileSystem) :
  (exists w v, resolve fs = (w, Ok (Some v, LatestResults)))
  <-> (exists f d rs,
         open fs latest_results_file = Some f
         /\ content f = JsonText (JDict d)
         /\ status d = Some "completed"
         /\ results d = Some rs).
Proof.
  pose proof (method1_spec fs) as M.
  split.
  - intros (w & v & R).
    assert (forall w1, method1 fs = (w1, Ok (None, Unknown)) -> False) as NoFall.
    { intros w1 H1. rewrite (resolve_falls_through fs w1 H1) in R.
      destruct (backup_tier_cases fs) as [(w2 & v2 & n & B)|[(w2 & B)|(w2 & e & B)]];
        rewrite B in R; simpl in R; inversion R. }
    destruct (open fs latest_results_file) as [f|]; [|destruct (NoFall _ M)].
    destruct (content f) as [|v0|rows0|] eqn:C;
      try solve [destruct (NoFall _ M)].
    destruct v0 as [d|b]; simpl in M; [|destruct (NoFall _ M)].
    destruct (is_completed (status d)) eqn:S; simpl in M;
      [|destruct (NoFall _ M)].
    destruct (results d) as [rs|] eqn:Rs; simpl in M;
      [|destruct (NoFall _ M)].
    exists f, d, rs. apply is_completed_iff in S. auto.
  - intros (f & d & rs & Hopen & Hcontent & Hst & Hrs).
    rewrite Hopen, Hcontent in M. simpl in M.
    rewrite Hst, Hrs in M. simpl in M.
    exists [LoadingRealtime], (JDict d).
    apply resolve_live; [exact M|]. simpl. rewrite Hrs. reflexivity.
Qed.

Lemma live_tier_eligibility_witness :
  exists w v, resolve fs_empty_results = (w, Ok (Some v, LatestResults)).
Proof.
  apply (proj2 (live_tier_eligibility fs_empty_results)).
  exists (live_file 1 (completed [])).
  eexists. exists []. repeat split; reflexivity.
Defined.

(** A completed live file with an empty results list is selected all the
    same: the backup beside it is never read, and the call ends in the
    handler with an empty frame. *)
Lemma completed_with_empty_results_is_selected :
  open fs_empty_results latest_results_file
  = Some (live_file 1 (completed []))
  /\ get_results (completed []) = Ok []
  /\ resolve fs_empty_results
     = ([LoadingRealtime], Ok (Some (completed []), LatestResults))
  /\ load_race_data fs_empty_results
     = ([LoadingRealtime; ErrorLoadingData KeyError], (empty_frame, None)).
Proof.
  repeat split; reflexivity.
Qed.

(** * Backup-file selection *)

Lemma Qltb_true (a b : Q) : Qltb a b = true <-> (a < b)%Q.
Proof.
  unfold Qltb. rewrite negb_true_iff. split.
  - intros H. apply Qnot_le_lt. intros L.
    apply Qle_bool_iff in L. congruence.
  - intros H. destruct (Qle_bool b a) eqn:E; [|reflexivity].
    apply Qle_bool_iff in E. exfalso. exact (Qlt_not_le _ _ H E).
Qed.

Lemma Qltb_false (a b : Q) : Qltb a b = false <-> (b <= a)%Q.
Proof.
  unfold Qltb. rewrite negb_false_iff. apply Qle_bool_iff.
Qed.

Section MaxLoop.
Context {A : Type} (key : A -> Q).

(** The running maximum ends on an element of the list whose key bounds
    every key, and every element before it has a strictly smaller key. *)
Lemma max_loop_first_maximum (l : list A) : forall best : A,
  exists pre post,
    best :: l = pre ++ max_loop key best l :: post
    /\ (forall x, In x (best :: l) -> (key x <= key (max_loop key best l))%Q)
    /\ (forall x, In x pre -> (key x < key (max_loop key best l))%Q).
Proof.
  induction l as [|x l IH]; intros best.
  - exists [], []. simpl. repeat split.
    + intros y [<-|[]]. apply Qle_refl.
    + intros y [].
  - simpl. destruct (Qltb (key best) (key x)) eqn:E.
    + apply Qltb_true in E.
      destruct (IH x) as (pre & post & Heq & Hmax & Hpre).
      exists (best :: pre), post. repeat split.
      * simpl. rewrite <- Heq. reflexivity.
      * intros y [<-|Hy].
        -- apply Qlt_le_weak. eapply Qlt_le_trans; [exact E|].
           apply Hmax. left. reflexivity.
        -- apply Hmax. exact Hy.
      * intros y [<-|Hy].
        -- eapply Qlt_le_trans; [exact E|]. apply Hmax. left. reflexivity.
        -- apply Hpre. exact Hy.
    + apply Qltb_false in E.
      destruct (IH best) as (pre & post & Heq & Hmax & Hpre).
      destruct pre as [|p pre].
      * simpl in Heq. injection Heq as Hb Hl.
        exists [], (x :: l). repeat split.
        -- simpl. rewrite <- Hb. reflexivity.
        -- intros y [<-|[<-|Hy]].
           ++ apply Hmax. left. reflexivity.
           ++ rewrite <- Hb. exact E.
           ++ apply Hmax. right. exact Hy.
        -- intros y [].
      * simpl in Heq. injection Heq as Hb Hl. subst p.
        exists (best :: x :: pre), post. repeat split.
        -- simpl. rewrite <- Hl. reflexivity.
        -- intros y [<-|[<-|Hy]].
           ++ apply Hmax. left. reflexivity.
           ++ eapply Qle_trans; [exact E|]. apply Hmax. left. reflexivity.
           ++ apply Hmax. right. exact Hy.
        -- intros y [<-|[<-|Hy]].
           ++ apply Hpre. left. reflexivity.
           ++ eapply Qle_lt_trans; [exact E|]. apply Hpre. left. reflexivity.
           ++ apply Hpre. right. exact Hy.
Qed.
End MaxLoop.

(** C5 (amended).  When at least one backup file matches the pattern, the
    backup tier loads a file whose creation time is the greatest; among
    files that share that time it takes the one the directory listing
    yields first (every file listed before the chosen one is strictly
    older), which is deterministic for a given listing and unrelated to
    the order of the paths.  For A created at 1 and B created at 2 the
    choice is B in either listing order. *)
Theorem backup_selection (fs : FileSystem) :
  glob fs <> [] ->
  exists f pre post,
    py_max ctime (glob fs) = Ok f
    /\ glob fs = pre ++ f :: post
    /\ (forall g, In g (glob fs) -> (ctime g <= ctime f)%Q)
    /\ (forall g, In g pre -> (ctime g < ctime f)%Q)
    /\ backup_tier fs
       = ([FoundRaceFiles (List.length (glob fs)); Loading (path f)],
          rbind (json_load f)
            (fun v => Ok (Some v, BackupFile (basename (path f)))))
    /\ (forall a b : File, (ctime a < ctime b)%Q ->
          py_max ctime [a; b] = Ok b /\ py_max ctime [b; a] = Ok b).
Proof.
  intros Hne. unfold backup_tier, method2. simpl.
  destruct (glob fs) as [|x l] eqn:G; [congruence|].
  destruct (max_loop_first_maximum ctime l x) as (pre & post & Heq & Hmax & Hpre).
  exists (max_loop ctime x l), pre, post. repeat split; auto.
  - simpl. destruct (json_load (max_loop ctime x l)); reflexivity.
  - simpl. apply Qltb_true in H. rewrite H. reflexivity.
  - simpl. assert (Qltb (ctime b) (ctime a) = false) as ->; [|reflexivity].
    apply Qltb_false. apply Qlt_le_weak. exact H.
Qed.

Lemma backup_selection_witness :
  exists f pre post,
    py_max ctime (glob [file_A; file_B]) = Ok f
    /\ glob [file_A; file_B] = pre ++ f :: post
    /\ (forall g, In g (glob [file_A; file_B]) -> (ctime g <= ctime f)%Q)
    /\ (forall g, In g pre -> (ctime g < ctime f)%Q)
    /\ backup_tier [file_A; file_B]
       = ([FoundRaceFiles (List.length (glob [file_A; file_B]));
           Loading (path f)],
          rbind (json_load f)
            (fun v => Ok (Some v, BackupFile (basename (path f)))))
    /\ (forall a b : File, (ctime a < ctime b)%Q ->
          py_max ctime [a; b] = Ok b /\ py_max ctime [b; a] = Ok b).
Proof.
  apply (backup_selection [file_A; file_B]).
  vm_compute. discriminate.
Defined.

(** Files A (created at 1) and B (created at 2): B is loaded, in either
    listing order. *)
Example backup_A_B :
  backup_tier [file_A; file_B]
  = ([FoundRaceFiles 2; Loading "rocket_race_results_B.json"],
     Ok (Some old_race, BackupFile "rocket_race_results_B.json"))
  /\ backup_tier [file_B; file_A]
     = ([FoundRaceFiles 2; Loading "rocket_race_results_B.json"],
        Ok (Some old_race, BackupFile "rocket_race_results_B.json")).
Proof. split; reflexivity. Qed.

(** Three backups with one creation time, listed b, a, c: the first listed
    is loaded, although its path is neither the least nor the greatest. *)
Lemma tie_follows_listing_order :
  glob fs_ties = [tie_b; tie_a; tie_c]
  /\ (ctime tie_a == ctime tie_b)%Q /\ (ctime tie_b == ctime tie_c)%Q
  /\ py_max ctime (glob fs_ties) = Ok tie_b
  /\ fst (backup_tier fs_ties)
     = [FoundRaceFiles 3; Loading "rocket_race_results_b.json"]
  /\ String.ltb (path tie_a) (path tie_b) = true
  /\ String.ltb (path tie_b) (path tie_c) = true.
Proof.
  repeat split; reflexivity.
Qed.

(** * Schema normalisation *)

Lemma Column_eqb_eq (c d : Column) : Column_eqb c d = true <-> c = d.
Proof.
  destruct c, d; simpl; split; intros H;
    solve [reflexivity | discriminate].
Qed.

Lemma existsb_filter_column (c : Column) (P : Column -> bool)
  (l : list Column) :
  existsb (Column_eqb c) (filter P l) = P c && existsb (Column_eqb c) l.
Proof.
  induction l as [|d l IH]; simpl.
  - rewrite andb_false_r. reflexivity.
  - destruct (P d) eqn:Pd; simpl; rewrite IH.
    + destruct (Column_eqb c d) eqn:E; simpl.
      * apply Column_eqb_eq in E. subst d. rewrite Pd. reflexivity.
      * reflexivity.
    + destruct (Column_eqb c d) eqn:E; simpl; [|reflexivity].
      apply Column_eqb_eq in E. subst d. rewrite Pd. reflexivity.
Qed.

(** A frame built from records has a column exactly when some record has
    the key. *)
Lemma has_column_frame_of_results (c : Column) (rs : list RawRecord) :
  has_column c (frame_of_results rs) = existsb (has_key c) rs.
Proof.
  unfold has_column.
  change (columns (frame_of_results rs))
    with (filter (fun c => existsb (has_key c) rs) all_columns).
  rewrite existsb_filter_column.
  destruct c; simpl; rewrite ?orb_true_r; apply andb_true_r.
Qed.

(** The race branch, when some record names a user: every record becomes a
    row and one message is written. *)
Lemma race_branch_ok (v : Json) (src : DataSource) (rs : list RawRecord) :
  get_results v = Ok rs ->
  existsb (has_key col_Username) rs = true ->
  race_branch v src
  = ([LoadedRaceData (List.length rs) src],
     Ok ({| columns := columns (frame_of_results rs);
            rows := map normalize_record rs |}, src)).
Proof.
  intros Hrs Hu. unfold race_branch, clean_usernames.
  rewrite Hrs. simpl.
  rewrite has_column_frame_of_results, Hu. simpl.
  unfold len. simpl. rewrite !length_map, map_map. reflexivity.
Qed.

Lemma race_branch_inv (v : Json) (src : DataSource) (w : list Diag)
  (df : DataFrame) (src' : DataSource) :
  race_branch v src = (w, Ok (df, src')) ->
  exists rs,
    get_results v = Ok rs
    /\ existsb (has_key col_Username) rs = true
    /\ df = {| columns := columns (frame_of_results rs);
               rows := map normalize_record rs |}
    /\ w = [LoadedRaceData (List.length rs) src].
Proof.
  intros H. destruct (get_results v) as [rs|e] eqn:Hrs.
  - destruct (existsb (has_key col_Username) rs) eqn:Hu.
    + rewrite (race_branch_ok v src rs Hrs Hu) in H. inversion H.
      exists rs. auto.
    + unfold race_branch, clean_usernames in H. rewrite Hrs in H.
      simpl in H. rewrite has_column_frame_of_results, Hu in H.
      discriminate.
  - unfold race_branch in H. rewrite Hrs in H. discriminate.
Qed.

(** Resolution never labels a document with the participant list. *)
Lemma resolve_source_cases (fs : FileSystem) (w : list Diag)
  (o : option Json) (src : DataSource) :
  resolve fs = (w, Ok (o, src)) ->
  src = LatestResults \/ (exists name, src = BackupFile name)
  \/ (src = Unknown /\ o = None).
Proof.
  intros R. pose proof (method1_spec fs) as M.
  assert (forall w1, method1 fs = (w1, Ok (None, Unknown)) ->
          (exists name, src = BackupFile name) \/ (src = Unknown /\ o = None))
    as Fall.
  { intros w1 H1. rewrite (resolve_falls_through fs w1 H1) in R.
    destruct (backup_tier_cases fs)
      as [(w2 & v2 & n & B)|[(w2 & B)|(w2 & e & B)]];
      rewrite B in R; simpl in R; inversion R; eauto. }
  destruct (open fs latest_results_file) as [f|]; [|right; eauto].
  destruct (content f) as [|v0|rows0|]; try solve [right; eauto].
  destruct (get_status v0) as [st|e]; [|right; eauto].
  destruct (is_completed st && has_results v0) eqn:C; [|right; eauto].
  apply andb_true_iff in C. destruct C as [_ C].
  rewrite (resolve_live fs v0 M C) in R. inversion R. left. reflexivity.
Qed.

(** A successful load is either the participant list or the race branch
    applied to the resolved document. *)
Lemma load_race_data_cases (fs : FileSystem) (w : list Diag)
  (df : DataFrame) (src : DataSource) :
  load_race_data fs = (w, (df, Some src)) ->
  (src = CSVParticipantList
   /\ exists rs, df = participants_frame rs)
  \/ (src <> CSVParticipantList
      /\ exists w1 v rs,
           resolve fs = (w1, Ok (Some v, src))
           /\ get_results v = Ok rs
           /\ existsb (has_key col_Username) rs = true
           /\ df = {| columns := columns (frame_of_results rs);
                      rows := map normalize_record rs |}
           /\ w = w1 ++ [LoadedRaceData (List.length rs) src]).
Proof.
  unfold load_race_data, load_race_data_body, bind.
  destruct (resolve fs) as [w1 [[o ds]|e]] eqn:R; simpl; [|discriminate].
  assert (forall w2 df2 s2, csv_branch fs = (w2, Ok (df2, s2)) ->
          s2 = CSVParticipantList /\ exists rs, df2 = participants_frame rs)
    as Csv.
  { unfold csv_branch. intros w2 df2 s2.
    destruct (read_csv fs participants_csv) as [rs|e]; simpl;
      [|discriminate].
    intros H. inversion H. eauto. }
  destruct o as [v|].
  - destruct (truthy v).
    + destruct (race_branch v ds) as [w2 [[df2 s2]|e]] eqn:B; simpl;
        [|discriminate].
      intros H. inversion H. subst.
      pose proof (race_branch_source _ _ _ _ _ B) as ->.
      destruct (race_branch_inv _ _ _ _ _ B) as (rs & Hrs & Hu & Hdf & Hw).
      right. split.
      * destruct (resolve_source_cases _ _ _ _ R)
          as [->|[[name ->]|[_ Hn]]]; discriminate.
      * exists w1, v, rs. subst. auto.
    + destruct (csv_branch fs) as [w2 [[df2 s2]|e]] eqn:B; simpl;
        [|discriminate].
      intros H. inversion H. subst. left. eapply Csv. reflexivity.
  - destruct (csv_branch fs) as [w2 [[df2 s2]|e]] eqn:B; simpl;
      [|discriminate].
    intros H. inversion H. subst. left. eapply Csv. reflexivity.
Qed.

Lemma str_remove_filter (c : ascii) (u : string) :
  list_ascii_of_string (str_remove c u)
  = filter (fun a => negb (Ascii.eqb a c)) (list_ascii_of_string u).
Proof.
  induction u as [|a u IH]; simpl; [reflexivity|].
  destruct (Ascii.eqb a c); simpl; [exact IH|].
  rewrite IH. reflexivity.
Qed.

Lemma str_remove_no_sigil (s : string) :
  no_sigil s = true -> str_remove "@"%char s = s.
Proof.
  induction s as [|a s IH]; simpl; [reflexivity|].
  intros H. apply andb_true_iff in H. destruct H as [Ha Hs].
  apply negb_true_iff in Ha. rewrite Ha, (IH Hs). reflexivity.
Qed.

(** C3 (amended).  Race-tier normalisation removes every "@" character
    of the username - hence a leading sigil - and keeps all its other
    characters, blanks included, in order; every other field of the record
    is carried over unchanged.  The record with username "@pilot1" yields
    username "pilot1" with all its other fields as given. *)
Theorem username_normalization (r : RawRecord) :
  Username (normalize_record r)
  = option_map (str_remove "@"%char) (username r)
  /\ (forall u, username r = Some u ->
        exists u', Username (normalize_record r) = Some u'
          /\ list_ascii_of_string u'
             = filter (fun a => negb (Ascii.eqb a "@"%char))
                 (list_ascii_of_string u))
  /\ (forall s, username r = Some (String "@"%char s) ->
        no_sigil s = true -> Username (normalize_record r) = Some s)
  /\ Full_Name (normalize_record r) = fullName r
  /\ Race_Time_s (normalize_record r) = raceTime r
  /\ Speed_kmh (normalize_record r) = averageSpeed r
  /\ Boosts_Used (normalize_record r) = boostsUsed r
  /\ Collisions (normalize_record r) = collisions r
  /\ Distance_Covered_km (normalize_record r) = distanceCovered r
  /\ Rank (normalize_record r) = rank r
  /\ normalize_record pilot1 = pilot1_row
  /\ fst (snd (load_race_data fs_pilot1))
     = {| columns := [col_Username; col_Race_Time; col_Speed;
                      col_Boosts_Used; col_Collisions; col_Distance_Covered;
                      col_Rank];
          rows := [pilot1_row] |}.
Proof.
  split; [reflexivity|].
  split.
  { intros u Hu. exists (str_remove "@"%char u). split.
    - unfold normalize_record, clean_username. simpl. rewrite Hu. reflexivity.
    - apply str_remove_filter. }
  split.
  { intros s Hu Hs. unfold normalize_record, clean_username. simpl.
    rewrite Hu. simpl. rewrite (str_remove_no_sigil s Hs). reflexivity. }
  repeat split; reflexivity.
Qed.

Lemma username_normalization_witness :
  Username (normalize_record pilot1) = Some "pilot1".
Proof.
  destruct (username_normalization pilot1) as (_ & _ & H & _).
  apply (H "pilot1"); reflexivity.
Defined.

(** A sigil inside the username is removed as well, and blanks around a
    username stay, where stripping a leading sigil and trimming would give
    "pi@lot" and "ace". *)
Lemma inner_sigil_removed_and_blanks_kept :
  username inner_sigil = Some "pi@lot"
  /\ Username (normalize_record inner_sigil) = Some "pilot"
  /\ strip_sigil_and_trim "pi@lot" = "pi@lot"
  /\ username padded = Some " ace "
  /\ Username (normalize_record padded) = Some " ace "
  /\ strip_sigil_and_trim " ace " = "ace".
Proof.
  repeat split; reflexivity.
Qed.

Lemma normalize_record_raced (r : RawRecord) :
  raced_row (normalize_record r) = complete_record r.
Proof. reflexivity. Qed.

Lemma normalize_record_pending (r : RawRecord) :
  pending_row (normalize_record r) = bare_record r.
Proof. reflexivity. Qed.

Lemma number_rows_pending (rs : list CsvRow) : forall i,
  forallb pending_row (number_rows i rs) = true.
Proof.
  induction rs as [|r rs IH]; intros i; simpl; [reflexivity|apply IH].
Qed.

Lemma forallb_normalized (P : Row -> bool) (rs : list RawRecord) :
  forallb P (map normalize_record rs)
  = forallb (fun r => P (normalize_record r)) rs.
Proof.
  induction rs as [|r rs IH]; simpl; [reflexivity|].
  rewrite IH. reflexivity.
Qed.

(** C4 (amended).  The participant-list tier yields only records whose
    three optional numeric fields are all absent.  In the race tiers each
    output record has race time, speed and distance present exactly where
    the corresponding input record has them, so the output is all-present
    (all-absent) when every input record is; nothing makes a mixed input
    uniform. *)
Theorem normalize_keeps_presence (fs : FileSystem) (w : list Diag)
  (df : DataFrame) (src : DataSource) :
  load_race_data fs = (w, (df, Some src)) ->
  (src = CSVParticipantList -> forallb pending_row (rows df) = true)
  /\ (src <> CSVParticipantList ->
      exists w1 v rs,
        resolve fs = (w1, Ok (Some v, src))
        /\ get_results v = Ok rs
        /\ rows df = map normalize_record rs
        /\ (forall r, raced_row (normalize_record r) = complete_record r
                      /\ pending_row (normalize_record r) = bare_record r)
        /\ (forallb complete_record rs = true ->
            forallb raced_row (rows df) = true)
        /\ (forallb bare_record rs = true ->
            forallb pending_row (rows df) = true)).
Proof.
  intros H.
  destruct (load_race_data_cases fs w df src H)
    as [[Hs (rs & Hdf)]|[Hs (w1 & v & rs & R & Hrs & Hu & Hdf & Hw)]].
  - split; [|congruence]. intros _. subst df. apply number_rows_pending.
  - split; [congruence|]. intros _.
    exists w1, v, rs. subst df. simpl.
    repeat split; auto.
    + intros Hc. rewrite forallb_normalized. exact Hc.
    + intros Hb. rewrite forallb_normalized. exact Hb.
Qed.

Lemma normalize_keeps_presence_witness :
  forallb pending_row (rows (fst (snd (load_race_data fs_participants))))
  = true.
Proof.
  refine (proj1 (normalize_keeps_presence fs_participants
                   (fst (load_race_data fs_participants))
                   (fst (snd (load_race_data fs_participants)))
                   CSVParticipantList eq_refl) eq_refl).
Defined.

(** A live file with one complete record and one lacking its race time
    loads into a collection that is neither all-present nor all-absent; its
    second record has a speed but no race time. *)
Lemma mixed_input_gives_mixed_collection :
  snd (snd (load_race_data fs_mixed)) = Some LatestResults
  /\ rows (fst (snd (load_race_data fs_mixed)))
     = [normalize_record ace; normalize_record no_time]
  /\ homogeneous (rows (fst (snd (load_race_data fs_mixed)))) = false
  /\ Race_Time_s (normalize_record no_time) = None
  /\ Speed_kmh (normalize_record no_time) = Some 30.
Proof.
  repeat split; reflexivity.
Qed.

Lemma isna_all_false {A B} (f : A -> option B) (l : list A) :
  isna_all (map f l) = false <-> exists r, In r l /\ f r <> None.
Proof.
  induction l as [|a l IH]; simpl.
  - split; [discriminate|intros (r & [] & _)].
  - destruct (f a) as [b|] eqn:E; simpl.
    + split; [|reflexivity]. intros _. exists a. split; [left; reflexivity|].
      congruence.
    + rewrite IH. split.
      * intros (r & Hr & Hf). exists r. auto.
      * intros (r & [<-|Hr] & Hf); [congruence|]. exists r. auto.
Qed.

Lemma has_race_data_true (df : DataFrame) :
  has_race_data df = Ok true
  <-> has_column col_Race_Time df = true
      /\ exists r, In r (rows df) /\ Race_Time_s r <> None.
Proof.
  unfold has_race_data, getcol.
  destruct (has_column col_Race_Time df); simpl.
  - destruct (isna_all (map Race_Time_s (rows df))) eqn:E; simpl.
    + split; [discriminate|]. intros [_ H].
      apply isna_all_false in H. congruence.
    + split; [|reflexivity]. intros _. split; [reflexivity|].
      apply isna_all_false. exact E.
  - split; [discriminate|intros [H _]; discriminate].
Qed.

Lemma get_results_truthy (v : Json) (rs : list RawRecord) :
  get_results v = Ok rs -> truthy v = true.
Proof.
  intros H. apply has_results_truthy.
  destruct v as [d|b]; simpl in *; [|discriminate].
  destruct (results d); [reflexivity|discriminate].
Qed.

(** C9 (amended).  Records of a race-tier document are not validated one
    by one.  When at least one record names a user, the load does not fail:
    it returns one row per record, in input order, for the records that
    lack a numeric field as for the others (the missing field is absent in
    the row), and the only message written counts them all.  The
    classification that follows (line 285) answers "raced" when at least
    one record carries a race time, and raises [KeyError] when none
    does. *)
Theorem malformed_records_are_kept (fs : FileSystem) (w1 : list Diag)
  (v : Json) (src : DataSource) (rs : list RawRecord) :
  resolve fs = (w1, Ok (Some v, src)) ->
  get_results v = Ok rs ->
  existsb (has_key col_Username) rs = true ->
  exists df,
    load_race_data fs
    = (w1 ++ [LoadedRaceData (List.length rs) src], (df, Some src))
    /\ List.length (rows df) = List.length rs
    /\ (forall i r, nth_error rs i = Some r ->
          nth_error (rows df) i = Some (normalize_record r))
    /\ (forall r, In r rs -> In (normalize_record r) (rows df))
    /\ ((exists r, In r rs /\ raceTime r <> None) ->
        has_race_data df = Ok true)
    /\ ((forall r, In r rs -> raceTime r = None) ->
        has_race_data df = Raise KeyError).
Proof.
  intros R Hrs Hu.
  exists {| columns := columns (frame_of_results rs);
            rows := map normalize_record rs |}.
  assert (has_column col_Race_Time
            {| columns := columns (frame_of_results rs);
               rows := map normalize_record rs |}
          = existsb (has_key col_Race_Time) rs) as Hcol.
  { change (has_column col_Race_Time (frame_of_results rs)
            = existsb (has_key col_Race_Time) rs).
    apply has_column_frame_of_results. }
  split; [|split; [|split; [|split; [|split]]]].
  - unfold load_race_data, load_race_data_body, bind. rewrite R. simpl.
    rewrite (get_results_truthy v rs Hrs).
    rewrite (race_branch_ok v src rs Hrs Hu). reflexivity.
  - simpl. apply length_map.
  - intros i r Hi. simpl. rewrite nth_error_map, Hi. reflexivity.
  - intros r Hr. simpl. apply in_map. exact Hr.
  - intros (r & Hin & Ht). apply has_race_data_true. split.
    + rewrite Hcol. apply existsb_exists. exists r. split; [exact Hin|].
      simpl. destruct (raceTime r); [reflexivity|congruence].
    + exists (normalize_record r). split; [simpl; apply in_map; exact Hin|].
      exact Ht.
  - intros Hnone. unfold has_race_data, getcol. rewrite Hcol.
    assert (existsb (has_key col_Race_Time) rs = false) as ->;
      [|reflexivity].
    destruct (existsb (has_key col_Race_Time) rs) eqn:E; [|reflexivity].
    apply existsb_exists in E. destruct E as (r & Hin & Hk).
    simpl in Hk. rewrite (Hnone r Hin) in Hk. discriminate.
Qed.

Lemma malformed_records_are_kept_witness :
  exists df,
    load_race_data fs_mixed
    = ([LoadingRealtime] ++ [LoadedRaceData 2 LatestResults],
       (df, Some LatestResults))
    /\ List.length (rows df) = 2%nat
    /\ (forall i r, nth_error [ace; no_time] i = Some r ->
          nth_error (rows df) i = Some (normalize_record r))
    /\ (forall r, In r [ace; no_time] -> In (normalize_record r) (rows df))
    /\ ((exists r, In r [ace; no_time] /\ raceTime r <> None) ->
        has_race_data df = Ok true)
    /\ ((forall r, In r [ace; no_time] -> raceTime r = None) ->
        has_race_data df = Raise KeyError).
Proof.
  exact (malformed_records_are_kept fs_mixed [LoadingRealtime]
           (completed [ace; no_time]) LatestResults [ace; no_time]
           eq_refl eq_refl eq_refl).
Defined.

(** A record without a race time, next to a well-formed one: it is
    neither skipped nor reported.  The frame has both rows, where the valid
    subset has one, and the log only tells how many rows were loaded. *)
Lemma record_without_race_time_is_not_skipped :
  well_formed_record ace = true
  /\ well_formed_record no_time = false
  /\ load_race_data fs_mixed
     = ([LoadingRealtime; LoadedRaceData 2 LatestResults],
        ({| columns := all_columns;
            rows := [normalize_record ace; normalize_record no_time] |},
         Some LatestResults))
  /\ map normalize_record (filter well_formed_record [ace; no_time])
     = [normalize_record ace].
Proof.
  repeat split; reflexivity.
Qed.

(** * Raced or pending *)

Lemma load_race_data_failed (fs : FileSystem) (w : list Diag)
  (df : DataFrame) :
  load_race_data fs = (w, (df, None)) -> df = empty_frame.
Proof.
  unfold load_race_data.
  destruct (load_race_data_body fs) as [w1 [[df1 s1]|e]]; intros H;
    inversion H; reflexivity.
Qed.

(** In a loaded frame, a race time in some row means the column exists. *)
Lemma loaded_frame_time_column (fs : FileSystem) (r : Row) :
  In r (rows (fst (snd (load_race_data fs)))) ->
  Race_Time_s r <> None ->
  has_column col_Race_Time (fst (snd (load_race_data fs))) = true.
Proof.
  destruct (load_race_data fs) as [w [df [src|]]] eqn:L; simpl.
  - destruct (load_race_data_cases fs w df src L)
      as [[Hs (rs & Hdf)]|[Hs (w1 & v & rs & R & Hrs & Hu & Hdf & Hw)]].
    + intros Hin Ht. subst df. reflexivity.
    + intros Hin Ht. subst df. simpl in Hin.
      apply in_map_iff in Hin. destruct Hin as (raw & <- & Hraw).
      unfold has_column. simpl columns.
      change (has_column col_Race_Time (frame_of_results rs) = true).
      rewrite has_column_frame_of_results. apply existsb_exists.
      exists raw. split; [exact Hraw|]. simpl.
      simpl in Ht. destruct (raceTime raw); [reflexivity|congruence].
  - rewrite (load_race_data_failed fs w df L). intros [].
Qed.

(** C10.  For the frame [load_race_data] returns, [has_race_data] is true
    exactly when some record has a race time.  So a frame in which one
    record has a race time, whatever the others have, is classified as
    raced, and the ranking chart is drawn with race times. *)
Theorem has_race_data_classification :
  (forall fs : FileSystem,
     has_race_data (fst (snd (load_race_data fs))) = Ok true
     <-> exists r, In r (rows (fst (snd (load_race_data fs))))
                   /\ Race_Time_s r <> None)
  /\ (forall (df : DataFrame) (r : Row) (t : Q),
        has_column col_Race_Time df = true ->
        In r (rows df) -> Race_Time_s r = Some t ->
        has_race_data df = Ok true
        /\ (has_columns [col_Username; col_Rank] df = true ->
            create_ranking_chart df true
            = Ok (RaceTimesChart
                    (map Username (firstn 20 (rows df)))
                    (map Race_Time_s (firstn 20 (rows df)))
                    (map Rank (firstn 20 (rows df)))))).
Proof.
  split.
  - intros fs. rewrite has_race_data_true. split.
    + intros [_ H]. exact H.
    + intros (r & Hin & Ht). split; [|eauto].
      exact (loaded_frame_time_column fs r Hin Ht).
  - intros df r t Hcol Hin Ht.
    assert (has_race_data df = Ok true) as Hd.
    { apply has_race_data_true. split; [exact Hcol|].
      exists r. split; [exact Hin|congruence]. }
    split; [exact Hd|].
    intros Hcols. unfold has_columns in Hcols. cbn [forallb] in Hcols.
    apply andb_true_iff in Hcols. destruct Hcols as [Hu Hrk].
    rewrite andb_true_r in Hrk.
    assert (negb (isna_all (map Race_Time_s (rows df))) = true) as Hraced.
    { unfold has_race_data, getcol in Hd. rewrite Hcol in Hd.
      cbn [rbind] in Hd. congruence. }
    unfold create_ranking_chart, getcol.
    change (has_column col_Username (head 20 df))
      with (has_column col_Username df).
    change (has_column col_Race_Time (head 20 df))
      with (has_column col_Race_Time df).
    change (has_column col_Rank (head 20 df)) with (has_column col_Rank df).
    rewrite Hcol, Hu, Hrk. cbn [rbind]. rewrite Hraced. reflexivity.
Qed.

Lemma has_race_data_classification_witness :
  has_race_data (frame [no_time; ace; no_time]) = Ok true.
Proof.
  exact (proj1 (proj2 has_race_data_classification
                  (frame [no_time; ace; no_time]) (normalize_record ace) 10
                  eq_refl (or_intror (or_introl eq_refl)) eq_refl)).
Defined.

(** * Fun facts *)

Lemma nth_error_snoc_lt {A} (l : list A) (c : A) (t : list A) (j : nat) :
  (j < List.length l)%nat ->
  nth_error ((l ++ [c]) ++ t) j = nth_error l j.
Proof.
  intros H. rewrite <- app_assoc. apply nth_error_app1. exact H.
Qed.

Lemma nth_error_snoc_eq {A} (l : list A) (c : A) (t : list A) :
  nth_error ((l ++ [c]) ++ t) (List.length l) = Some c.
Proof.
  rewrite <- app_assoc. rewrite nth_error_app2 by lia.
  rewrite Nat.sub_diag. reflexivity.
Qed.

(** One step of the scan keeps the invariant. *)
Lemma first_max_step (pre : list (option Q)) (c : option Q)
  (t : list (option Q)) (k : nat) (m : Q) :
  first_max (pre ++ c :: t) (List.length pre) k m ->
  match c with
  | Some x =>
      if Qltb m x
      then first_max ((pre ++ [c]) ++ t) (S (List.length pre))
             (List.length pre) x
      else first_max ((pre ++ [c]) ++ t) (S (List.length pre)) k m
  | None => first_max ((pre ++ [c]) ++ t) (S (List.length pre)) k m
  end.
Proof.
  intros (Hk & Hlt & Hmax & Hpre).
  assert (pre ++ c :: t = (pre ++ [c]) ++ t) as E
    by (rewrite <- app_assoc; reflexivity).
  rewrite E in Hk, Hmax, Hpre.
  assert (forall j v, (j < S (List.length pre))%nat ->
            nth_error ((pre ++ [c]) ++ t) j = Some (Some v) ->
            (j < List.length pre)%nat \/ c = Some v) as Split.
  { intros j v Hj Hn.
    destruct (Nat.eq_dec j (List.length pre)) as [->|Hne]; [|left; lia].
    rewrite nth_error_snoc_eq in Hn. right. congruence. }
  destruct c as [x|].
  - destruct (Qltb m x) eqn:Q.
    + apply Qltb_true in Q. repeat split.
      * apply nth_error_snoc_eq.
      * lia.
      * intros j v Hj Hn. destruct (Split j v Hj Hn) as [Hl|Hc].
        -- apply Qlt_le_weak. eapply Qle_lt_trans; [|exact Q].
           exact (Hmax j v Hl Hn).
        -- inversion Hc. apply Qle_refl.
      * intros j v Hj Hn. eapply Qle_lt_trans; [|exact Q].
        exact (Hmax j v Hj Hn).
    + apply Qltb_false in Q. repeat split; auto.
      intros j v Hj Hn. destruct (Split j v Hj Hn) as [Hl|Hc].
      * exact (Hmax j v Hl Hn).
      * inversion Hc. subst v. exact Q.
  - repeat split; auto.
    intros j v Hj Hn. destruct (Split j v Hj Hn) as [Hl|Hc].
    + exact (Hmax j v Hl Hn).
    + discriminate.
Qed.

Lemma idxmax_loop_first_max (t : list (option Q)) :
  forall (pre : list (option Q)) (k : nat) (m : Q),
    first_max (pre ++ t) (List.length pre) k m ->
    exists m',
      first_max (pre ++ t) (List.length (pre ++ t))
        (idxmax_loop k m (List.length pre) t) m'.
Proof.
  induction t as [|c t IH]; intros pre k m H.
  - exists m. simpl. rewrite app_nil_r in *. exact H.
  - pose proof (first_max_step pre c t k m H) as Step.
    assert (pre ++ c :: t = (pre ++ [c]) ++ t) as E
      by (rewrite <- app_assoc; reflexivity).
    assert (S (List.length pre) = List.length (pre ++ [c])) as L
      by (rewrite length_app; simpl; lia).
    rewrite E. rewrite L in Step. simpl idxmax_loop.
    destruct c as [x|].
    + destruct (Qltb m x).
      * rewrite L. apply IH. exact Step.
      * rewrite L. apply IH. exact Step.
    + rewrite L. apply IH. exact Step.
Qed.

Lemma idxmax_from_first_max (t : list (option Q)) :
  forall pre : list (option Q),
    (forall c, In c pre -> c = None) ->
    (exists x, In (Some x) t) ->
    exists k m,
      idxmax_from (List.length pre) t = Ok k
      /\ first_max (pre ++ t) (List.length (pre ++ t)) k m.
Proof.
  induction t as [|c t IH]; intros pre Hnan (x & Hx).
  - destruct Hx.
  - assert (pre ++ c :: t = (pre ++ [c]) ++ t) as E
      by (rewrite <- app_assoc; reflexivity).
    assert (S (List.length pre) = List.length (pre ++ [c])) as L
      by (rewrite length_app; simpl; lia).
    assert (forall j v, (j < List.length pre)%nat ->
              nth_error ((pre ++ [c]) ++ t) j = Some (Some v) -> False)
      as Before.
    { intros j v Hj Hn. rewrite nth_error_snoc_lt in Hn by exact Hj.
      apply nth_error_In in Hn. apply Hnan in Hn. discriminate. }
    destruct c as [y|].
    + simpl idxmax_from. rewrite E, L.
      destruct (idxmax_loop_first_max t (pre ++ [Some y])
                  (List.length pre) y) as (m' & Hm').
      * repeat split.
        -- apply nth_error_snoc_eq.
        -- rewrite <- L. lia.
        -- intros j v Hj Hn. rewrite <- L in Hj.
           destruct (Nat.eq_dec j (List.length pre)) as [->|Hne].
           ++ rewrite nth_error_snoc_eq in Hn. inversion Hn. apply Qle_refl.
           ++ exfalso. apply (Before j v); [lia|exact Hn].
        -- intros j v Hj Hn. exfalso. exact (Before j v Hj Hn).
      * eauto.
    + simpl idxmax_from. rewrite E, L. apply IH.
      * intros c Hc. apply in_app_or in Hc. destruct Hc as [Hc|[<-|[]]].
        -- apply Hnan. exact Hc.
        -- reflexivity.
      * destruct Hx as [Hx|Hx]; [discriminate|]. eauto.
Qed.

Lemma idxmax_first_max (s : list (option Q)) :
  (exists x, In (Some x) s) ->
  exists k m, idxmax s = Ok k /\ first_max s (List.length s) k m.
Proof.
  intros H. apply (idxmax_from_first_max s []); [intros c []|exact H].
Qed.

Lemma idxmax_from_all_nan (t : list (option Q)) : forall i,
  (forall c, In c t -> c = None) -> idxmax_from i t = Raise ValueError.
Proof.
  induction t as [|c t IH]; intros i H; simpl; [reflexivity|].
  rewrite (H c (or_introl eq_refl)). apply IH.
  intros d Hd. apply H. right. exact Hd.
Qed.

(** C6 (amended).  For each of the four fun facts, on a frame in which
    some record has the field, the record returned holds the maximum of the
    field, and among the records that hold the maximum it is the first in
    collection order (every earlier record holds strictly less).  When the
    collection is listed by increasing rank this is the tied record of
    lowest rank.  On an empty collection the selection raises, and [main]
    never evaluates it there. *)
Theorem fun_fact_first_maximum :
  (forall (f : FunFact) (df : DataFrame),
     has_column (fact_column f) df = true ->
     (exists r0, In r0 (rows df) /\ fact_value f r0 <> None) ->
     exists i r m,
       fun_fact f df = Ok r
       /\ nth_error (rows df) i = Some r
       /\ fact_value f r = Some m
       /\ (forall r' v, In r' (rows df) -> fact_value f r' = Some v -> v <= m)
       /\ (forall j r' v, (j < i)%nat -> nth_error (rows df) j = Some r' ->
             fact_value f r' = Some v -> v < m)
       /\ (ascending_rank (rows df) ->
           forall r' v, In r' (rows df) -> fact_value f r' = Some v ->
             v == m -> r' = r \/ rank_lt r r'))
  /\ (forall (f : FunFact) (df : DataFrame),
        rows df = [] ->
        (exists e, fun_fact f df = Raise e) /\ main_fun_facts df = Ok None).
Proof.
  split.
  - intros f df Hcol (r0 & Hin0 & Hv0).
    set (s := map (fact_value f) (rows df)).
    assert (exists x, In (Some x) s) as Hs.
    { destruct (fact_value f r0) as [x|] eqn:E; [|congruence].
      exists x. rewrite <- E. apply in_map. exact Hin0. }
    destruct (idxmax_first_max s Hs) as (k & m & Hk & Hnth & Hlt & Hmax & Hpre).
    unfold s in Hnth. rewrite nth_error_map in Hnth.
    destruct (nth_error (rows df) k) as [r|] eqn:Hr; [|discriminate].
    simpl in Hnth. assert (fact_value f r = Some m) as Hm by congruence.
    assert (forall j r' v, nth_error (rows df) j = Some r' ->
              fact_value f r' = Some v ->
              nth_error s j = Some (Some v) /\ (j < List.length s)%nat)
      as Cell.
    { intros j r' v Hj Hv. unfold s. rewrite nth_error_map, Hj. simpl.
      split; [congruence|]. rewrite length_map.
      apply nth_error_Some. congruence. }
    exists k, r, m. repeat split.
    + unfold fun_fact, getcol. rewrite Hcol. cbn [rbind].
      fold s. rewrite Hk. cbn [rbind]. unfold loc. rewrite Hr. reflexivity.
    + exact Hr.
    + exact Hm.
    + intros r' v Hin Hv. apply In_nth_error in Hin. destruct Hin as [j Hj].
      destruct (Cell j r' v Hj Hv) as [Hc Hl]. exact (Hmax j v Hl Hc).
    + intros j r' v Hj Hn Hv.
      destruct (Cell j r' v Hn Hv) as [Hc _]. exact (Hpre j v Hj Hc).
    + intros Hasc r' v Hin Hv Heq.
      apply In_nth_error in Hin. destruct Hin as [j Hj].
      destruct (Cell j r' v Hj Hv) as [Hc _].
      destruct (Nat.lt_trichotomy j k) as [Hjk|[->|Hjk]].
      * exfalso. pose proof (Hpre j v Hjk Hc) as Hl.
        rewrite Heq in Hl. exact (Qlt_irrefl _ Hl).
      * left. congruence.
      * right. exact (Hasc k j r r' Hjk Hr Hj).
  - intros f df Hrows. split.
    + unfold fun_fact, getcol. rewrite Hrows.
      destruct (has_column (fact_column f) df); cbn; eauto.
    + unfold main_fun_facts, df_empty. rewrite Hrows.
      destruct (columns df); reflexivity.
Qed.

Lemma fun_fact_first_maximum_witness :
  exists i r m,
    fun_fact MostBoostsUsed df_podium = Ok r
    /\ nth_error (rows df_podium) i = Some r
    /\ fact_value MostBoostsUsed r = Some m
    /\ (forall r' v, In r' (rows df_podium) ->
          fact_value MostBoostsUsed r' = Some v -> v <= m)
    /\ (forall j r' v, (j < i)%nat -> nth_error (rows df_podium) j = Some r' ->
          fact_value MostBoostsUsed r' = Some v -> v < m)
    /\ (ascending_rank (rows df_podium) ->
        forall r' v, In r' (rows df_podium) ->
          fact_value MostBoostsUsed r' = Some v ->
          v == m -> r' = r \/ rank_lt r r').
Proof.
  apply (proj1 fun_fact_first_maximum MostBoostsUsed df_podium).
  - reflexivity.
  - exists (normalize_record ace). split; [left; reflexivity|discriminate].
Defined.

(** Two racers tied at seven boosts, the one of rank 3 listed before the
    one of rank 2: the record of rank 3 is returned. *)
Lemma tie_goes_to_first_listed_not_lowest_rank :
  rows df_unordered
  = [normalize_record ace; normalize_record cyd; normalize_record bob]
  /\ fastest_booster df_unordered = Ok (normalize_record cyd)
  /\ Boosts_Used (normalize_record cyd) = Some 7%Z
  /\ Boosts_Used (normalize_record bob) = Some 7%Z
  /\ Rank (normalize_record cyd) = Some 3%Z
  /\ Rank (normalize_record bob) = Some 2%Z.
Proof.
  repeat split; reflexivity.
Qed.

(** The spec's own example: boosts 3, 7, 7 in rank order. *)
Example fastest_booster_podium :
  fastest_booster df_podium = Ok (normalize_record bob).
Proof. reflexivity. Qed.

(** * Plain queries *)

Lemma regex_special_dot (c : ascii) :
  regex_special c = false -> Ascii.eqb c "."%char = false.
Proof.
  intros H. destruct (Ascii.eqb c "."%char) eqn:E; [|reflexivity].
  apply Ascii.eqb_eq in E. subst c. discriminate.
Qed.

(** A query without pattern syntax compiles to its own characters. *)
Lemma re_compile_literal (q : string) :
  literal_query q = true -> re_compile q = Some (lits q).
Proof.
  induction q as [|c q IH]; simpl; [reflexivity|].
  intros H. apply andb_true_iff in H. destruct H as [Hc Hq].
  apply negb_true_iff in Hc.
  rewrite (IH Hq), (regex_special_dot c Hc), Hc. reflexivity.
Qed.

Lemma match_here_lits (q : string) : forall u,
  match_here (lits q) u = prefix_ci q u.
Proof.
  induction q as [|c q IH]; intros u; simpl; [reflexivity|].
  destruct u as [|b u]; [reflexivity|]. simpl. rewrite IH. reflexivity.
Qed.

Lemma re_search_lits (q u : string) :
  re_search (lits q) u = substring_ci q u.
Proof.
  induction u as [|b u IH]; simpl; rewrite match_here_lits;
    [reflexivity|].
  rewrite IH. reflexivity.
Qed.

Lemma boolean_index_map {A} (p : A -> bool) (l : list A) :
  boolean_index l (map p l) = filter p l.
Proof.
  induction l as [|a l IH]; simpl; [reflexivity|].
  destruct (p a); rewrite IH; reflexivity.
Qed.

(** For a query without pattern syntax, the search is the case-insensitive
    substring filter, in collection order; in particular it is empty, and
    nothing is raised, when no username contains the query. *)
Lemma search_literal (df : DataFrame) (q : string) :
  literal_query q = true ->
  search df q
  = Some {| columns := columns df;
            rows := filter (username_contains q) (rows df) |}.
Proof.
  intros H. unfold search, str_contains.
  rewrite (re_compile_literal q H), map_map.
  rewrite <- (boolean_index_map (username_contains q)).
  do 3 f_equal. apply map_ext. intros r. unfold username_contains.
  destruct (Username r); [apply re_search_lits|reflexivity].
Qed.

(** * Relative performance *)

Lemma count_gt_slower (t : Q) (l : list Row) :
  count_gt (map Race_Time_s l) (Some t)
  = List.length (filter (slower_than t) l).
Proof.
  unfold count_gt. induction l as [|r l IH]; simpl; [reflexivity|].
  unfold slower_than at 1. unfold cell_gt at 1.
  destruct (Race_Time_s r) as [x|]; [|exact IH].
  destruct (Qltb t x); simpl; [rewrite IH|]; auto.
Qed.

Lemma present_in {A} (s : list (option A)) (x : A) :
  In (Some x) s -> In x (present s).
Proof.
  induction s as [|c s IH]; simpl; [tauto|].
  intros [->|H]; [left; reflexivity|].
  destruct c; [right|]; auto.
Qed.

Lemma Qnat_nonneg (n : nat) : 0 <= Qnat n.
Proof.
  unfold Qnat, Qle. cbn [Qnum Qden inject_Z]. lia.
Qed.

Lemma Qnat_pos (n : nat) : (0 < n)%nat -> 0 < Qnat n.
Proof.
  intros H. unfold Qnat, Qlt. cbn [Qnum Qden inject_Z]. lia.
Qed.

Lemma Qnat_le (n m : nat) : (n <= m)%nat -> Qnat n <= Qnat m.
Proof.
  intros H. unfold Qnat, Qle. cbn [Qnum Qden inject_Z]. lia.
Qed.

(** A share of a non-empty collection, as a percentage. *)
Lemma percentage_bounds (k n : nat) :
  (k <= n)%nat -> (0 < n)%nat ->
  0 <= (Qnat k / Qnat n) * 100 /\ (Qnat k / Qnat n) * 100 <= 100.
Proof.
  intros Hk Hn.
  assert (0 <= Qnat k / Qnat n) as Lo.
  { apply Qle_shift_div_l; [apply Qnat_pos; exact Hn|].
    rewrite Qmult_0_l. apply Qnat_nonneg. }
  assert (Qnat k / Qnat n <= 1) as Hi.
  { apply Qle_shift_div_r; [apply Qnat_pos; exact Hn|].
    rewrite Qmult_1_l. apply Qnat_le. exact Hk. }
  split.
  - apply Qmult_le_0_compat; [exact Lo|discriminate].
  - setoid_replace 100 with (1 * 100) at 2 by reflexivity.
    apply Qmult_le_compat_r; [exact Hi|discriminate].
Qed.

Lemma filter_length_le {A} (p : A -> bool) (l : list A) :
  (List.length (filter p l) <= List.length l)%nat.
Proof.
  induction l as [|a l IH]; simpl; [lia|].
  destruct (p a); simpl; lia.
Qed.

Lemma boolean_index_In {A} (l : list A) : forall (mask : list bool) (x : A),
  In x (boolean_index l mask) -> In x l.
Proof.
  induction l as [|a l IH]; intros mask x; simpl; [tauto|].
  destruct mask as [|b mask]; [intros []|].
  destruct b; simpl.
  - intros [->|H]; [left; reflexivity|right; exact (IH mask x H)].
  - intros H. right. exact (IH mask x H).
Qed.

(** C7 (amended).  In a collection of more than one record, the
    comparison shown for a record with a race time has, as delta, the
    float difference of that time and the float mean of the race times that
    are present, and, as percentage, the float value of the number of
    records with a strictly greater race time, divided by the number of
    records, times 100 (in exact arithmetic: the time minus the arithmetic
    mean, and 100 times the share of strictly slower records).  For a
    collection of at most one record no comparison is made.  For a pending
    collection the search never makes one: for a query without
    regular-expression characters it answers with the participants whose
    username contains the query, or with the not-found notice.  On a raced
    collection every card of the search carries the comparison of its own
    record. *)
Theorem relative_performance :
  (forall (df : DataFrame) (user : Row) (t : Q),
     (1 < len df)%nat -> In user (rows df) -> Race_Time_s user = Some t ->
     exists p,
       performance_comparison df user = Some p
       /\ time_diff p
          = Some (FSub (FVal t)
                    (FMean (present (map Race_Time_s (rows df)))))
       /\ (0 < List.length (present (map Race_Time_s (rows df))))%nat
       /\ faster_than p
          = FMul (FDiv (FInt (Z.of_nat
                                (List.length
                                   (filter (slower_than t) (rows df)))))
                       (FInt (Z.of_nat (len df))))
                 (FInt 100)
       /\ (forall d, time_diff p = Some d ->
             exact_value d
             == t - Qsum (present (map Race_Time_s (rows df)))
                    / Qnat (List.length
                              (present (map Race_Time_s (rows df)))))
       /\ exact_value (faster_than p)
          == (Qnat (List.length (filter (slower_than t) (rows df)))
              / Qnat (len df)) * 100)
  /\ (forall (df : DataFrame) (user : Row),
        (len df <= 1)%nat -> performance_comparison df user = None)
  /\ (forall (df : DataFrame) (q : string)
             (cards : list (Row * option Performance)),
        find_your_rank df false q <> Some (Ok (SearchResults cards)))
  /\ (forall (df : DataFrame) (q : string),
        literal_query q = true -> q <> EmptyString ->
        has_columns [col_Username; col_Full_Name; col_Rank] df = true ->
        find_your_rank df false q
        = Some (Ok match filter (username_contains q) (rows df) with
                   | [] => NoParticipantFound
                   | users => ParticipantFound users
                   end))
  /\ (forall (df : DataFrame) (q : string)
             (cards : list (Row * option Performance))
             (user : Row) (p : option Performance),
        find_your_rank df true q = Some (Ok (SearchResults cards)) ->
        In (user, p) cards ->
        In user (rows df) /\ p = performance_comparison df user).
Proof.
  split; [|split; [|split; [|split]]].
  - intros df user t Hlen Hin Ht.
    assert (In t (present (map Race_Time_s (rows df)))) as Hp.
    { apply present_in. rewrite <- Ht. apply in_map. exact Hin. }
    unfold performance_comparison.
    assert ((1 <? len df)%nat = true) as -> by (apply Nat.ltb_lt; exact Hlen).
    unfold mean. rewrite Ht, count_gt_slower.
    destruct (present (map Race_Time_s (rows df))) as [|x xs] eqn:P;
      [destruct Hp|].
    eexists. split; [reflexivity|]. cbn [time_diff faster_than cell_sub].
    split; [reflexivity|]. split; [simpl; lia|].
    split; [reflexivity|]. split.
    + intros d Hd. inversion Hd. reflexivity.
    + reflexivity.
  - intros df user Hlen. unfold performance_comparison.
    assert ((1 <? len df)%nat = false) as -> by (apply Nat.ltb_ge; exact Hlen).
    reflexivity.
  - intros df q cards. unfold find_your_rank.
    destruct (String.eqb q EmptyString); [discriminate|].
    destruct (search df q) as [res|]; [|discriminate].
    destruct (rows res); [discriminate|].
    destruct (has_columns _ df); discriminate.
  - intros df q Hq Hne Hc. unfold find_your_rank.
    assert (String.eqb q EmptyString = false) as ->
      by (apply String.eqb_neq; exact Hne).
    rewrite (search_literal df q Hq). cbn [rows].
    destruct (filter (username_contains q) (rows df)); [reflexivity|].
    rewrite Hc. reflexivity.
  - intros df q cards user p. unfold find_your_rank.
    destruct (String.eqb q EmptyString); [discriminate|].
    unfold search.
    destruct (str_contains q (map Username (rows df))) as [mask|];
      [|discriminate].
    cbn [rows].
    destruct (boolean_index (rows df) mask) as [|u us] eqn:B;
      [discriminate|].
    destruct (has_columns card_columns df); [|discriminate].
    intros H Hin. injection H as Hc. subst cards.
    change (In (user, p)
              (map (fun user => (user, performance_comparison df user))
                 (u :: us))) in Hin.
    apply in_map_iff in Hin. destruct Hin as (u' & Hu' & Hin).
    inversion Hu'. subst. split; [|reflexivity].
    apply (boolean_index_In (rows df) mask). rewrite B. exact Hin.
Qed.

Lemma relative_performance_witness :
  exists p,
    performance_comparison df_podium (normalize_record ace) = Some p
    /\ time_diff p = Some (FSub (FVal 10) (FMean [10; 11; 12]))
    /\ (0 < 3)%nat
    /\ faster_than p = FMul (FDiv (FInt 2) (FInt 3)) (FInt 100)
    /\ (forall d, time_diff p = Some d ->
          exact_value d == 10 - Qsum [10; 11; 12] / Qnat 3)
    /\ exact_value (faster_than p) == (Qnat 2 / Qnat 3) * 100.
Proof.
  apply (proj1 relative_performance df_podium (normalize_record ace) 10).
  - unfold len. simpl. lia.
  - left. reflexivity.
  - reflexivity.
Defined.

(** A raced collection of one record gets no comparison, and on a pending
    collection the search answers with the participant it found. *)
Lemma single_record_has_no_comparison :
  has_race_data df_single = Ok true
  /\ rows df_single = [normalize_record ace]
  /\ performance_comparison df_single (normalize_record ace) = None
  /\ find_your_rank df_single true "ace"
     = Some (Ok (SearchResults [(normalize_record ace, None)]))
  /\ has_race_data df_pending = Ok false
  /\ find_your_rank df_pending false "ace"
     = Some (Ok (ParticipantFound
                   [placeholder_row 1 {| csv_Username := Some "ace";
                                         csv_Full_Name := None |}])).
Proof.
  repeat split; reflexivity.
Qed.

(** * Search *)

(** With an empty search term and "All", the participant table is the
    whole frame. *)
Lemma participants_filter_empty_term (df : DataFrame) :
  participants_filter df EmptyString None = Some df.
Proof. reflexivity. Qed.

(** C8 (the code at its failing input).  The query "." occurs in no
    username of the collection, yet the search returns every participant:
    the query is compiled as a regular expression, in which "." stands for
    any character. *)
Theorem search_reads_query_as_pattern :
  filter (username_contains ".") (rows df_pending) = []
  /\ search df_pending "." = Some df_pending
  /\ participants_filter df_pending "." None = Some df_pending
  /\ find_your_rank df_pending false "."
     = Some (Ok (ParticipantFound (rows df_pending))).
Proof.
  repeat split; reflexivity.
Qed.

(** * Further properties of load_race_data *)

Lemma load_race_data_raise (fs : FileSystem) (w : list Diag) (e : exn) :
  resolve fs = (w, Raise e) ->
  load_race_data fs = (w ++ [ErrorLoadingData e], (empty_frame, None)).
Proof.
  intros R. unfold load_race_data, load_race_data_body, bind.
  rewrite R. reflexivity.
Qed.

Lemma load_race_data_csv (fs : FileSystem) (w : list Diag)
  (o : option Json) (src : DataSource) :
  resolve fs = (w, Ok (o, src)) ->
  truthy_opt o = false ->
  load_race_data fs = csv_outcome fs w.
Proof.
  intros R T.
  unfold load_race_data, load_race_data_body, csv_outcome, csv_branch,
    bind, lift, write, ret.
  rewrite R. cbn [fst snd].
  destruct o as [v|]; [simpl in T; rewrite T|];
    destruct (read_csv fs participants_csv); simpl; rewrite ?app_nil_r;
    reflexivity.
Qed.

Lemma method1_no_live_file (fs : FileSystem) :
  open fs latest_results_file = None ->
  method1 fs = ([], Ok (None, Unknown)).
Proof.
  intros H. pose proof (method1_spec fs) as M. rewrite H in M. exact M.
Qed.

(** The backup tier once its newest file is known. *)
Lemma backup_tier_chosen (fs : FileSystem) (f : File) :
  py_max ctime (glob fs) = Ok f ->
  backup_tier fs
  = ([FoundRaceFiles (List.length (glob fs)); Loading (path f)],
     rbind (json_load f)
       (fun v => Ok (Some v, BackupFile (basename (path f))))).
Proof.
  unfold backup_tier, method2. simpl.
  destruct (glob fs) as [|x l]; simpl; [discriminate|].
  intros H. inversion H. destruct (json_load (max_loop ctime x l)); reflexivity.
Qed.

(** X1.  With no live results file and no backup file, the participant
    list decides the outcome: its rows when it can be read and its
    usernames are text, the empty frame and an error message when it
    cannot be read; an export whose Username column is not text (numbers
    only, or no username at all) ends in [AttributeError] and the empty
    frame. *)
Theorem no_race_files_reads_participants (fs : FileSystem) :
  open fs latest_results_file = None ->
  glob fs = [] ->
  load_race_data fs
  = match read_csv fs participants_csv with
    | Ok rs => ([FoundRaceFiles 0; NoRaceFiles],
                (participants_frame rs, Some CSVParticipantList))
    | Raise e => ([FoundRaceFiles 0; ErrorLoadingData e],
                  (empty_frame, None))
    end
  /\ (forall f,
        open fs participants_csv = Some f ->
        content f = CsvOtherUsernames
        \/ (exists rows,
              content f = CsvText rows /\ usernames_are_text rows = false) ->
        load_race_data fs
        = ([FoundRaceFiles 0; ErrorLoadingData AttributeError],
           (empty_frame, None))).
Proof.
  intros Hlive Hglob.
  pose proof (resolve_falls_through fs [] (method1_no_live_file fs Hlive)) as R.
  unfold backup_tier, method2 in R. simpl in R. rewrite Hglob in R.
  simpl in R.
  rewrite (load_race_data_csv fs _ _ _ R eq_refl).
  unfold csv_outcome. split.
  - destruct (read_csv fs participants_csv); reflexivity.
  - intros f Hf Hc. unfold read_csv. rewrite Hf.
    destruct Hc as [->|(rows & -> & ->)]; reflexivity.
Qed.

Lemma no_race_files_reads_participants_witness :
  load_race_data fs_participants
  = ([FoundRaceFiles 0; NoRaceFiles],
     (participants_frame
        [ {| csv_Username := Some " ace "; csv_Full_Name := None |};
          {| csv_Username := Some "bob"; csv_Full_Name := Some "Bob B" |} ],
      Some CSVParticipantList)).
Proof.
  exact (proj1 (no_race_files_reads_participants fs_participants
                  eq_refl eq_refl)).
Defined.

(** X2.  When the first tier yields nothing and the newest backup file
    cannot be parsed, the load fails: the frame is empty, the error is
    reported, and neither an older backup nor the participant list is
    read. *)
Theorem unreadable_newest_backup_is_fatal (fs : FileSystem) (w : list Diag)
  (f : File) (e : exn) :
  method1 fs = (w, Ok (None, Unknown)) ->
  py_max ctime (glob fs) = Ok f ->
  json_load f = Raise e ->
  load_race_data fs
  = (w ++ [FoundRaceFiles (List.length (glob fs)); Loading (path f);
           ErrorLoadingData e],
     (empty_frame, None)).
Proof.
  intros M Hmax Hload.
  pose proof (resolve_falls_through fs w M) as R.
  rewrite (backup_tier_chosen fs f Hmax), Hload in R. simpl in R.
  rewrite (load_race_data_raise fs _ e R).
  rewrite <- app_assoc. reflexivity.
Qed.

Lemma unreadable_newest_backup_is_fatal_witness :
  load_race_data fs_corrupt_backup
  = ([] ++ [FoundRaceFiles 2; Loading "rocket_race_results_2.json";
            ErrorLoadingData JSONDecodeError],
     (empty_frame, None)).
Proof.
  exact (unreadable_newest_backup_is_fatal fs_corrupt_backup []
           {| path := "rocket_race_results_2.json"; ctime := 6;
              content := Malformed |} JSONDecodeError
           eq_refl eq_refl eq_refl).
Defined.

(** X3.  When the first tier yields nothing and the newest backup parses
    to a value that Python treats as false (an empty object, an empty list,
    null, ...), the load continues with the participant list: it returns
    the participant frame when the export can be read and its usernames
    are text, and the empty frame with the error otherwise; an export whose
    Username column is not text ends in [AttributeError]. *)
Theorem falsy_backup_reads_participants (fs : FileSystem) (w : list Diag)
  (f : File) (v : Json) :
  method1 fs = (w, Ok (None, Unknown)) ->
  py_max ctime (glob fs) = Ok f ->
  json_load f = Ok v ->
  truthy v = false ->
  load_race_data fs
  = csv_outcome fs
      (w ++ [FoundRaceFiles (List.length (glob fs)); Loading (path f)])
  /\ (forall g,
        open fs participants_csv = Some g ->
        content g = CsvOtherUsernames
        \/ (exists rows,
              content g = CsvText rows /\ usernames_are_text rows = false) ->
        load_race_data fs
        = ((w ++ [FoundRaceFiles (List.length (glob fs)); Loading (path f)])
           ++ [ErrorLoadingData AttributeError],
           (empty_frame, None))).
Proof.
  intros M Hmax Hload Hv.
  pose proof (resolve_falls_through fs w M) as R.
  rewrite (backup_tier_chosen fs f Hmax), Hload in R. simpl in R.
  rewrite (load_race_data_csv fs _ (Some v) _ R Hv).
  split; [reflexivity|].
  intros g Hg Hc. unfold csv_outcome, read_csv. rewrite Hg.
  destruct Hc as [->|(rows & -> & ->)]; reflexivity.
Qed.

Lemma falsy_backup_reads_participants_witness :
  load_race_data fs_empty_backup
  = ([FoundRaceFiles 2; Loading "rocket_race_results_2.json"; NoRaceFiles],
     (participants_frame
        [ {| csv_Username := Some " ace "; csv_Full_Name := None |};
          {| csv_Username := Some "bob"; csv_Full_Name := Some "Bob B" |} ],
      Some CSVParticipantList)).
Proof.
  exact (proj1 (falsy_backup_reads_participants fs_empty_backup []
           (backup_file "rocket_race_results_2.json" 6
              (JDict {| status := None; results := None; other_keys := [] |}))
           (JDict {| status := None; results := None; other_keys := [] |})
           eq_refl eq_refl eq_refl eq_refl)).
Defined.

(** X4.  Whatever the live results file holds, method 1 returns: an
    unparsable file, or one that is not a JSON object, is reported in the
    sidebar and resolution goes on with the backup tier. *)
Theorem live_file_errors_are_contained (fs : FileSystem) :
  (exists w st, method1 fs = (w, Ok st))
  /\ (forall f, open fs latest_results_file = Some f ->
        (forall d, content f <> JsonText (JDict d)) ->
        exists e,
          method1 fs = ([ErrorReadingLatest e], Ok (None, Unknown))
          /\ resolve fs
             = (ErrorReadingLatest e :: fst (backup_tier fs),
                snd (backup_tier fs))).
Proof.
  pose proof (method1_spec fs) as M. split.
  - destruct (open fs latest_results_file) as [f|]; [|eauto].
    destruct (content f) as [|v|rs|]; eauto.
    destruct (get_status v) as [st|e]; eauto.
    destruct (is_completed st && has_results v); eauto.
  - intros f Hf Hnd. rewrite Hf in M.
    assert (exists e, method1 fs = ([ErrorReadingLatest e], Ok (None, Unknown)))
      as [e He].
    { destruct (content f) as [|v|rs|] eqn:C; eauto.
      destruct v as [d|b]; [destruct (Hnd d eq_refl)|]. simpl in M. eauto. }
    exists e. split; [exact He|].
    exact (resolve_falls_through fs _ He).
Qed.

Lemma live_file_errors_are_contained_witness :
  exists e,
    method1 fs_corrupt_live = ([ErrorReadingLatest e], Ok (None, Unknown))
    /\ resolve fs_corrupt_live
       = (ErrorReadingLatest e :: fst (backup_tier fs_corrupt_live),
          snd (backup_tier fs_corrupt_live)).
Proof.
  apply (proj2 (live_file_errors_are_contained fs_corrupt_live)
           {| path := latest_results_file; ctime := 9; content := Malformed |}).
  - reflexivity.
  - intros d. discriminate.
Defined.

Lemma load_participants_inv (fs : FileSystem) (w : list Diag)
  (df : DataFrame) :
  load_race_data fs = (w, (df, Some CSVParticipantList)) ->
  exists rs,
    read_csv fs participants_csv = Ok rs /\ df = participants_frame rs.
Proof.
  intros H.
  destruct (resolve fs) as [w1 [[o src]|e]] eqn:R.
  - destruct (truthy_opt o) eqn:T.
    + exfalso. destruct o as [v|]; [|discriminate]. simpl in T.
      unfold load_race_data, load_race_data_body, bind in H.
      rewrite R in H. cbn [fst snd] in H. rewrite T in H.
      destruct (race_branch v src) as [w2 [[df2 s2]|e]] eqn:B;
        [|discriminate].
      pose proof (race_branch_source _ _ _ _ _ B) as ->.
      inversion H. subst src.
      destruct (resolve_source_cases _ _ _ _ R) as [E|[[n E]|[E _]]];
        discriminate.
    + rewrite (load_race_data_csv fs w1 o src R T) in H.
      unfold csv_outcome in H.
      destruct (read_csv fs participants_csv) as [rs|e]; [|discriminate].
      exists rs. inversion H. auto.
  - rewrite (load_race_data_raise fs w1 e R) in H. discriminate.
Qed.

Lemma number_rows_nth (rs : list CsvRow) : forall k i,
  nth_error (number_rows k rs) i
  = option_map (placeholder_row (k + i)) (nth_error rs i).
Proof.
  induction rs as [|c rs IH]; intros k i.
  - destruct i; reflexivity.
  - destruct i as [|i]; simpl.
    + rewrite Nat.add_0_r. reflexivity.
    + rewrite IH. rewrite Nat.add_succ_r. reflexivity.
Qed.

Lemma number_rows_length (rs : list CsvRow) : forall k,
  List.length (number_rows k rs) = List.length rs.
Proof.
  induction rs as [|c rs IH]; intros k; simpl; [reflexivity|].
  rewrite IH. reflexivity.
Qed.

(** X5.  A load that ends on the participant list returns one record per
    row of the export, in the order of the export; the record at position
    i (counted from 0) has rank i + 1, the trimmed username, the full name
    of the export or else the trimmed username, zero boosts and
    collisions, and no race time, speed or distance. *)
Theorem participant_rows_in_export_order (fs : FileSystem) (w : list Diag)
  (df : DataFrame) :
  load_race_data fs = (w, (df, Some CSVParticipantList)) ->
  exists rs,
    read_csv fs participants_csv = Ok rs
    /\ len df = List.length rs
    /\ forall i c, nth_error rs i = Some c ->
         exists r,
           nth_error (rows df) i = Some r
           /\ Rank r = Some (Z.of_nat i + 1)%Z
           /\ Username r = option_map strip (csv_Username c)
           /\ Full_Name r
              = match csv_Full_Name c with
                | Some n => Some n
                | None => option_map strip (csv_Username c)
                end
           /\ Boosts_Used r = Some 0%Z /\ Collisions r = Some 0%Z
           /\ Race_Time_s r = None /\ Speed_kmh r = None
           /\ Distance_Covered_km r = None.
Proof.
  intros H. destruct (load_participants_inv fs w df H) as (rs & Hcsv & ->).
  exists rs. split; [exact Hcsv|]. split.
  - unfold len, participants_frame. simpl. apply number_rows_length.
  - intros i c Hi. exists (placeholder_row (S i) c).
    unfold participants_frame. cbn [rows].
    rewrite number_rows_nth, Hi. simpl. repeat split.
    f_equal. lia.
Qed.

Lemma participant_rows_in_export_order_witness :
  exists rs,
    read_csv fs_participants participants_csv = Ok rs
    /\ len (fst (snd (load_race_data fs_participants))) = List.length rs
    /\ forall i c, nth_error rs i = Some c ->
         exists r,
           nth_error (rows (fst (snd (load_race_data fs_participants)))) i
           = Some r
           /\ Rank r = Some (Z.of_nat i + 1)%Z
           /\ Username r = option_map strip (csv_Username c)
           /\ Full_Name r
              = match csv_Full_Name c with
                | Some n => Some n
                | None => option_map strip (csv_Username c)
                end
           /\ Boosts_Used r = Some 0%Z /\ Collisions r = Some 0%Z
           /\ Race_Time_s r = None /\ Speed_kmh r = None
           /\ Distance_Covered_km r = None.
Proof.
  exact (participant_rows_in_export_order fs_participants
           (fst (load_race_data fs_participants))
           (fst (snd (load_race_data fs_participants))) eq_refl).
Defined.

Lemma lstrip_decomposition (s : string) :
  exists a, s = (a ++ lstrip s)%string /\ all_space a = true.
Proof.
  induction s as [|c s (a & IH & Ha)]; simpl.
  - exists EmptyString. auto.
  - destruct (isspace c) eqn:E.
    + exists (String c a). simpl. rewrite E, Ha, <- IH. auto.
    + exists EmptyString. auto.
Qed.

Lemma lstrip_head (s : string) (c : ascii) (t : string) :
  lstrip s = String c t -> isspace c = false.
Proof.
  induction s as [|a s IH]; simpl; [discriminate|].
  destruct (isspace a) eqn:E; [exact IH|].
  intros H. inversion H. subst. exact E.
Qed.

Lemma rstrip_decomposition (s : string) :
  exists b, s = (rstrip s ++ b)%string /\ all_space b = true.
Proof.
  induction s as [|c s (b & IH & Hb)]; simpl.
  - exists EmptyString. auto.
  - destruct (isspace c && String.eqb (rstrip s) EmptyString) eqn:E.
    + apply andb_true_iff in E. destruct E as [Ec Es].
      apply String.eqb_eq in Es. rewrite Es in IH. simpl in IH.
      exists (String c b). simpl. rewrite Ec, Hb, <- IH. auto.
    + exists b. simpl. rewrite <- IH. auto.
Qed.

Lemma rstrip_last (s : string) : forall (t : string) (c : ascii),
  rstrip s = (t ++ String c EmptyString)%string -> isspace c = false.
Proof.
  induction s as [|a s IH]; intros t c; simpl.
  - destruct t; discriminate.
  - destruct (isspace a && String.eqb (rstrip s) EmptyString) eqn:E.
    + destruct t; discriminate.
    + destruct t as [|b t]; simpl; intros H; inversion H.
      * subst a. rewrite H2 in E. simpl in E.
        rewrite andb_true_r in E. exact E.
      * exact (IH t c H2).
Qed.

Lemma rstrip_head (s : string) (c : ascii) (t : string) :
  (forall c' t', s = String c' t' -> isspace c' = false) ->
  rstrip s = String c t -> isspace c = false.
Proof.
  destruct s as [|a s]; simpl; [discriminate|].
  intros Hs. rewrite (Hs a s eq_refl). simpl.
  intros H. inversion H. subst. exact (Hs c s eq_refl).
Qed.

Lemma rstrip_idempotent (s : string) : rstrip (rstrip s) = rstrip s.
Proof.
  induction s as [|a s IH]; simpl; [reflexivity|].
  destruct (isspace a && String.eqb (rstrip s) EmptyString) eqn:E;
    [reflexivity|].
  simpl. rewrite IH, E. reflexivity.
Qed.

Lemma lstrip_fixed (s : string) :
  (forall c t, s = String c t -> isspace c = false) -> lstrip s = s.
Proof.
  destruct s as [|a s]; simpl; [reflexivity|].
  intros H. rewrite (H a s eq_refl). reflexivity.
Qed.

Lemma append_assoc_string (a b c : string) :
  ((a ++ b) ++ c = a ++ (b ++ c))%string.
Proof.
  induction a as [|x a IH]; simpl; [reflexivity|]. rewrite IH. reflexivity.
Qed.

(** X6.  The trimming applied to the usernames of the participant list
    removes blanks at both ends only: the result neither begins nor ends
    with a blank, the input is the result between two runs of blanks, and
    trimming again changes nothing. *)
Theorem strip_trims_both_ends (s : string) :
  trimmed (strip s)
  /\ strip (strip s) = strip s
  /\ exists a b,
       s = (a ++ strip s ++ b)%string
       /\ all_space a = true /\ all_space b = true.
Proof.
  assert (forall c t, strip s = String c t -> isspace c = false) as Head.
  { intros c t. unfold strip. apply rstrip_head.
    intros c' t'. apply lstrip_head. }
  split; [|split].
  - split; [exact Head|]. intros t c. unfold strip. apply rstrip_last.
  - unfold strip at 1. rewrite (lstrip_fixed (strip s) Head).
    unfold strip. apply rstrip_idempotent.
  - destruct (lstrip_decomposition s) as (a & Ha & Sa).
    destruct (rstrip_decomposition (lstrip s)) as (b & Hb & Sb).
    exists a, b. unfold strip. rewrite <- Hb, <- Ha. auto.
Qed.

Lemma strip_trims_both_ends_witness :
  strip (strip "  a b  ") = strip "  a b  ".
Proof.
  exact (proj1 (proj2 (strip_trims_both_ends "  a b  "))).
Defined.

Lemma no_sigil_str_remove (u : string) :
  no_sigil (str_remove "@"%char u) = true.
Proof.
  induction u as [|a u IH]; simpl; [reflexivity|].
  destruct (Ascii.eqb a "@"%char) eqn:E; [exact IH|].
  simpl. rewrite E, IH. reflexivity.
Qed.

(** X7.  In a frame loaded from the live results file or from a backup
    file no username contains the character "@". *)
Theorem race_usernames_have_no_sigil (fs : FileSystem) (w : list Diag)
  (df : DataFrame) (src : DataSource) :
  load_race_data fs = (w, (df, Some src)) ->
  src <> CSVParticipantList ->
  forall r u, In r (rows df) -> Username r = Some u -> no_sigil u = true.
Proof.
  intros H Hsrc r u Hin Hu.
  destruct (load_race_data_cases fs w df src H)
    as [[Hs _]|[_ (w1 & v & rs & R & Hrs & Hk & Hdf & Hw)]]; [congruence|].
  subst df. simpl in Hin. apply in_map_iff in Hin.
  destruct Hin as (raw & <- & _).
  unfold normalize_record, clean_username in Hu. simpl in Hu.
  destruct (username raw) as [u0|]; [|discriminate].
  simpl in Hu. inversion Hu. apply no_sigil_str_remove.
Qed.

Lemma race_usernames_have_no_sigil_witness : no_sigil "ace" = true.
Proof.
  apply (race_usernames_have_no_sigil fs_mixed
           (fst (load_race_data fs_mixed))
           (fst (snd (load_race_data fs_mixed))) LatestResults eq_refl
           ltac:(discriminate) (normalize_record ace) "ace").
  - left. reflexivity.
  - reflexivity.
Defined.

Lemma loaded_frame_columns (fs : FileSystem) (w : list Diag)
  (df : DataFrame) (src : DataSource) :
  load_race_data fs = (w, (df, Some src)) ->
  has_column col_Username df = true
  /\ (src <> CSVParticipantList -> df_empty df = false).
Proof.
  intros H.
  destruct (load_race_data_cases fs w df src H)
    as [[Hs (rs & ->)]|[Hs (w1 & v & rs & R & Hrs & Hk & -> & Hw)]].
  - split; [reflexivity|congruence].
  - split.
    + change (has_column col_Username (frame_of_results rs) = true).
      rewrite has_column_frame_of_results. exact Hk.
    + intros _. unfold df_empty. cbn [columns rows].
      assert (has_column col_Username (frame_of_results rs) = true) as Hc
        by (rewrite has_column_frame_of_results; exact Hk).
      unfold has_column in Hc.
      destruct (columns (frame_of_results rs)); [discriminate|].
      destruct rs; [discriminate|]. reflexivity.
Qed.

(** X8.  Every frame a successful load returns has the Username column,
    and one loaded from a race file has at least one row; a failed load
    returns the empty frame.  So whenever [main] gets past its emptiness
    check, selecting the usernames cannot raise. *)
Theorem loaded_frame_has_usernames (fs : FileSystem) :
  (forall w df src,
     load_race_data fs = (w, (df, Some src)) ->
     has_column col_Username df = true
     /\ (src <> CSVParticipantList -> df_empty df = false))
  /\ (forall w df,
        load_race_data fs = (w, (df, None)) -> df_empty df = true)
  /\ (df_empty (fst (snd (load_race_data fs))) = false ->
      exists s, getcol col_Username Username (fst (snd (load_race_data fs)))
                = Ok s).
Proof.
  assert (forall w df src,
     load_race_data fs = (w, (df, Some src)) ->
     has_column col_Username df = true
     /\ (src <> CSVParticipantList -> df_empty df = false)) as Ok_case
    by (intros w df src; apply loaded_frame_columns).
  split; [exact Ok_case|]. split.
  - intros w df H. rewrite (load_race_data_failed fs w df H). reflexivity.
  - destruct (load_race_data fs) as [w [df [src|]]] eqn:L; cbn [fst snd].
    + intros _. unfold getcol.
      destruct (Ok_case w df src eq_refl) as [-> _]. eauto.
    + rewrite (load_race_data_failed fs w df L). discriminate.
Qed.

Lemma loaded_frame_has_usernames_witness :
  exists s, getcol col_Username Username (fst (snd (load_race_data fs_mixed)))
            = Ok s.
Proof.
  apply (proj2 (proj2 (loaded_frame_has_usernames fs_mixed))).
  reflexivity.
Defined.

(** * The backup file pattern *)

Lemma length_append_string (a b : string) :
  String.length (a ++ b)%string = (String.length a + String.length b)%nat.
Proof.
  induction a as [|c a IH]; simpl; [reflexivity|]. rewrite IH. reflexivity.
Qed.

Lemma prefix_append (p t : string) : prefix p (p ++ t)%string = true.
Proof.
  induction p as [|c p IH]; simpl; [destruct t; reflexivity|].
  destruct (ascii_dec c c); [exact IH|congruence].
Qed.

Lemma prefix_split (p : string) : forall n,
  prefix p n = true -> exists t, n = (p ++ t)%string.
Proof.
  induction p as [|c p IH]; intros n; simpl.
  - intros _. exists n. reflexivity.
  - destruct n as [|d n]; simpl; [discriminate|].
    destruct (ascii_dec c d) as [->|]; [|discriminate].
    intros H. destruct (IH n H) as [t ->]. exists t. reflexivity.
Qed.

Lemma substring_skip (p : string) (k m : nat) (t : string) :
  substring (String.length p + k) m (p ++ t)%string = substring k m t.
Proof.
  induction p as [|c p IH]; simpl; [reflexivity|exact IH].
Qed.

Lemma substring_whole (s : string) : substring 0 (String.length s) s = s.
Proof.
  induction s as [|c s IH]; simpl; [reflexivity|]. rewrite IH. reflexivity.
Qed.

Lemma substring_cut (t : string) : forall k,
  (k <= String.length t)%nat ->
  t = (substring 0 k t ++ substring k (String.length t - k) t)%string.
Proof.
  induction t as [|c t IH]; intros k Hk; simpl in Hk.
  - assert (k = 0)%nat as -> by lia. reflexivity.
  - destruct k as [|k].
    + simpl. rewrite substring_whole. reflexivity.
    + simpl. rewrite <- (IH k) by lia. reflexivity.
Qed.

Lemma endswith_iff (suf s : string) :
  endswith suf s = true <-> exists a, s = (a ++ suf)%string.
Proof.
  unfold endswith. rewrite andb_true_iff, String.eqb_eq, Nat.leb_le. split.
  - intros [Hsub Hlen].
    exists (substring 0 (String.length s - String.length suf) s).
    assert (String.length s - String.length suf <= String.length s)%nat
      as Hk by lia.
    pose proof (substring_cut s _ Hk) as C.
    replace (String.length s - (String.length s - String.length suf))%nat
      with (String.length suf) in C by lia.
    rewrite Hsub in C. exact C.
  - intros [a ->]. rewrite length_append_string. split; [|lia].
    replace (String.length a + String.length suf - String.length suf)%nat
      with (String.length a + 0)%nat by lia.
    rewrite substring_skip. apply substring_whole.
Qed.

(** X9.  The backup tier considers exactly the directory entries whose
    name is "rocket_race_results_", any text, and ".json"; it keeps them
    in listing order. *)
Theorem glob_matches_backup_names (fs : FileSystem) (f : File) :
  (In f (glob fs)
   <-> In f fs
       /\ exists mid,
            path f = ("rocket_race_results_" ++ mid ++ ".json")%string)
  /\ sublist (glob fs) fs.
Proof.
  split.
  - unfold glob. rewrite filter_In.
    assert (matches_race_pattern (path f) = true
            <-> exists mid,
                  path f = ("rocket_race_results_" ++ mid ++ ".json")%string)
      as P.
    { unfold matches_race_pattern.
      rewrite !andb_true_iff, Nat.leb_le. split.
      - intros [[Hp He] Hl].
        destruct (prefix_split _ _ Hp) as [t Ht].
        assert (endswith race_file_suffix t = true) as Et.
        { unfold endswith in *. rewrite Ht in He, Hl.
          rewrite length_append_string in He, Hl.
          apply andb_true_iff in He. destruct He as [He _].
          replace (String.length race_file_prefix + String.length t
                   - String.length race_file_suffix)%nat
            with (String.length race_file_prefix
                  + (String.length t - String.length race_file_suffix))%nat
            in He by lia.
          rewrite substring_skip in He. rewrite He. cbn [andb].
          apply Nat.leb_le. lia. }
        apply endswith_iff in Et. destruct Et as [mid ->].
        exists mid. exact Ht.
      - intros [mid Hm]. rewrite Hm. split; [split|].
        + apply prefix_append.
        + apply endswith_iff.
          exists ("rocket_race_results_" ++ mid)%string.
          rewrite append_assoc_string. reflexivity.
        + rewrite !length_append_string.
          unfold race_file_prefix, race_file_suffix. simpl. lia. }
    rewrite P. reflexivity.
  - unfold glob. induction fs as [|x fs IH]; simpl; [constructor|].
    destruct (matches_race_pattern (path x)); constructor; exact IH.
Qed.

Lemma glob_matches_backup_names_witness :
  In tie_a (glob fs_ties).
Proof.
  apply (proj1 (glob_matches_backup_names fs_ties tie_a)). split.
  - right. left. reflexivity.
  - exists "a"%string. reflexivity.
Defined.

(** * Further properties of main *)

Lemma number_rows_no_times (rs : list CsvRow) : forall k,
  isna_all (map Race_Time_s (number_rows k rs)) = true.
Proof.
  induction rs as [|c rs IH]; intros k; simpl; [reflexivity|apply IH].
Qed.

(** X10.  A load that ends on the participant list is always classified
    as pending: [has_race_data] is false (it does not raise), the fun
    facts are not computed, no winner is shown, and the ranking chart is
    the participant chart of the first twenty rows. *)
Theorem participant_list_is_pending (fs : FileSystem) (w : list Diag)
  (df : DataFrame) :
  load_race_data fs = (w, (df, Some CSVParticipantList)) ->
  has_race_data df = Ok false
  /\ main_fun_facts df = Ok None
  /\ winner df false = Ok None
  /\ sidebar_statistics df false = Ok (len df, None)
  /\ create_ranking_chart df false
     = Ok (ParticipantsChart (map Username (firstn 20 (rows df)))
             (map Rank (firstn 20 (rows df)))).
Proof.
  intros H. destruct (load_participants_inv fs w df H) as (rs & _ & ->).
  assert (has_race_data (participants_frame rs) = Ok false) as Hp.
  { unfold has_race_data, getcol, participants_frame. cbn [rbind rows].
    change (has_column col_Race_Time
              {| columns := all_columns; rows := number_rows 1 rs |})
      with true. cbn [rbind].
    rewrite number_rows_no_times. reflexivity. }
  split; [exact Hp|]. split.
  - unfold main_fun_facts. rewrite Hp.
    destruct (df_empty (participants_frame rs)); reflexivity.
  - repeat split.
Qed.

Lemma participant_list_is_pending_witness :
  has_race_data (fst (snd (load_race_data fs_participants))) = Ok false.
Proof.
  exact (proj1 (participant_list_is_pending fs_participants
                  (fst (load_race_data fs_participants))
                  (fst (snd (load_race_data fs_participants))) eq_refl)).
Defined.

(** X11.  When a race file is loaded in which no record carries a race
    time, the frame has no race-time column and the classification of line
    285 raises [KeyError] instead of answering false. *)
Theorem race_file_without_times_raises (fs : FileSystem) (w : list Diag)
  (df : DataFrame) (src : DataSource) :
  load_race_data fs = (w, (df, Some src)) ->
  src <> CSVParticipantList ->
  (forall r, In r (rows df) -> Race_Time_s r = None) ->
  df_empty df = false /\ has_race_data df = Raise KeyError.
Proof.
  intros H Hsrc Hnone.
  destruct (loaded_frame_columns fs w df src H) as [_ He].
  split; [exact (He Hsrc)|].
  destruct (load_race_data_cases fs w df src H)
    as [[Hs _]|[_ (w1 & v & rs & R & Hrs & Hk & Hdf & Hw)]]; [congruence|].
  subst df. unfold has_race_data, getcol.
  change (has_column col_Race_Time
            {| columns := columns (frame_of_results rs);
               rows := map normalize_record rs |})
    with (has_column col_Race_Time (frame_of_results rs)).
  rewrite has_column_frame_of_results.
  assert (existsb (has_key col_Race_Time) rs = false) as ->; [|reflexivity].
  destruct (existsb (has_key col_Race_Time) rs) eqn:E; [|reflexivity].
  apply existsb_exists in E. destruct E as (raw & Hin & Hkey).
  simpl in Hkey.
  assert (Race_Time_s (normalize_record raw) = None) as Hn.
  { apply Hnone. simpl. apply in_map. exact Hin. }
  simpl in Hn. rewrite Hn in Hkey. discriminate.
Qed.

Lemma race_file_without_times_raises_witness :
  df_empty (fst (snd (load_race_data fs_no_times))) = false
  /\ has_race_data (fst (snd (load_race_data fs_no_times))) = Raise KeyError.
Proof.
  apply (race_file_without_times_raises fs_no_times
           (fst (load_race_data fs_no_times))
           (fst (snd (load_race_data fs_no_times))) LatestResults eq_refl).
  - discriminate.
  - intros r [<-|[<-|[]]]; reflexivity.
Defined.

(** X12.  On a frame with the columns it selects, the ranking chart has
    one bar for each of the first twenty records of the frame, in order,
    labelled with that record's username and captioned with its rank, and
    no other bar.  It plots the race times of these records exactly when it
    is called with [has_race_data] true and some record of the frame has a
    race time; otherwise it is the participant chart. *)
Theorem ranking_chart_bars (df : DataFrame) (b : bool) :
  has_columns [col_Username; col_Rank] df = true ->
  (b = true -> has_column col_Race_Time df = true) ->
  exists c,
    create_ranking_chart df b = Ok c
    /\ chart_x c = map Username (firstn 20 (rows df))
    /\ chart_text c = map Rank (firstn 20 (rows df))
    /\ chart_y c
       = (if plots_race_times c
          then Some (map Race_Time_s (firstn 20 (rows df)))
          else None)
    /\ (plots_race_times c = true
        <-> b = true /\ exists r, In r (rows df) /\ Race_Time_s r <> None)
    /\ chart_bars c = Nat.min 20 (len df)
    /\ chart_labels c = chart_bars c.
Proof.
  intros Hcols Htime. unfold has_columns in Hcols. cbn [forallb] in Hcols.
  apply andb_true_iff in Hcols. destruct Hcols as [Hu Hrk].
  rewrite andb_true_r in Hrk.
  unfold create_ranking_chart, getcol.
  change (has_column col_Username (head 20 df))
    with (has_column col_Username df).
  change (has_column col_Race_Time (head 20 df))
    with (has_column col_Race_Time df).
  change (has_column col_Rank (head 20 df)) with (has_column col_Rank df).
  change (rows (head 20 df)) with (firstn 20 (rows df)).
  rewrite Hu, Hrk.
  destruct b.
  - rewrite (Htime eq_refl). cbn [rbind].
    destruct (isna_all (map Race_Time_s (rows df))) eqn:E; cbn [negb rbind].
    + eexists. split; [reflexivity|].
      cbn [chart_x chart_y chart_text chart_bars chart_labels
           plots_race_times].
      rewrite !length_map, length_firstn.
      repeat split; try discriminate.
      intros [_ Hex]. apply isna_all_false in Hex. congruence.
    + eexists. split; [reflexivity|].
      cbn [chart_x chart_y chart_text chart_bars chart_labels
           plots_race_times].
      rewrite !length_map, length_firstn.
      repeat split. apply isna_all_false. exact E.
  - cbn [rbind]. eexists. split; [reflexivity|].
    cbn [chart_x chart_y chart_text chart_bars chart_labels
         plots_race_times].
    rewrite !length_map, length_firstn.
    repeat split; try discriminate. intros [Hb _]. discriminate.
Qed.

Lemma ranking_chart_bars_witness :
  exists c,
    create_ranking_chart df_podium true = Ok c
    /\ chart_x c = map Username (firstn 20 (rows df_podium))
    /\ chart_text c = map Rank (firstn 20 (rows df_podium))
    /\ chart_y c
       = (if plots_race_times c
          then Some (map Race_Time_s (firstn 20 (rows df_podium)))
          else None)
    /\ (plots_race_times c = true
        <-> true = true
            /\ exists r, In r (rows df_podium) /\ Race_Time_s r <> None)
    /\ chart_bars c = Nat.min 20 (len df_podium)
    /\ chart_labels c = chart_bars c.
Proof.
  apply (ranking_chart_bars df_podium true); reflexivity.
Defined.

Lemma firstn_In {A} (n : nat) (l : list A) (x : A) :
  In x (firstn n l) -> In x l.
Proof.
  revert n. induction l as [|a l IH]; intros n; destruct n; simpl; try tauto.
  intros [->|H]; [left; reflexivity|right; exact (IH n H)].
Qed.



(** X14.  Among ranks from 1 upwards a better rank never gets a lesser
    status: the status is WINNER for rank 1, PODIUM up to 3, TOP 10 up to
    10, TOP 50 up to 50 and FINISHED beyond; a rank below 1 is shown as
    PODIUM and a missing rank as FINISHED. *)
Theorem status_badge_by_rank :
  (forall r1 r2 : Z, (1 <= r1 <= r2)%Z ->
     (badge_level (status_badge (Some r2))
      <= badge_level (status_badge (Some r1)))%nat)
  /\ (forall r : Z,
        (status_badge (Some r) = WINNER <-> r = 1%Z)
        /\ (status_badge (Some r) = PODIUM <-> (r <= 3 /\ r <> 1)%Z)
        /\ (status_badge (Some r) = TOP_10 <-> (4 <= r <= 10)%Z)
        /\ (status_badge (Some r) = TOP_50 <-> (11 <= r <= 50)%Z)
        /\ (status_badge (Some r) = FINISHED <-> (51 <= r)%Z))
  /\ status_badge None = FINISHED.
Proof.
  assert (forall r : Z,
            (r = 1 /\ status_badge (Some r) = WINNER)%Z
            \/ ((r <= 3 /\ r <> 1)%Z /\ status_badge (Some r) = PODIUM)
            \/ ((4 <= r <= 10)%Z /\ status_badge (Some r) = TOP_10)
            \/ ((11 <= r <= 50)%Z /\ status_badge (Some r) = TOP_50)
            \/ ((51 <= r)%Z /\ status_badge (Some r) = FINISHED)) as Cases.
  { intros r. unfold status_badge.
    destruct (Z.eqb_spec r 1); [left; auto|].
    destruct (Z.leb_spec r 3); [right; left; auto|].
    destruct (Z.leb_spec r 10); [right; right; left; split; [lia|auto]|].
    destruct (Z.leb_spec r 50);
      [right; right; right; left; split; [lia|auto]|].
    right; right; right; right. split; [lia|auto]. }
  split; [|split; [|reflexivity]].
  - intros r1 r2 H.
    destruct (Cases r1) as [[A ->]|[[A ->]|[[A ->]|[[A ->]|[A ->]]]]];
      destruct (Cases r2) as [[B ->]|[[B ->]|[[B ->]|[[B ->]|[B ->]]]]];
      simpl; lia.
  - intros r.
    destruct (Cases r) as [[A E]|[[A E]|[[A E]|[[A E]|[A E]]]]];
      rewrite E; repeat split; intros; try discriminate; try lia; auto.
Qed.

Lemma status_badge_by_rank_witness :
  (badge_level (status_badge (Some 7%Z))
   <= badge_level (status_badge (Some 2%Z)))%nat.
Proof.
  apply (proj1 status_badge_by_rank 2%Z 7%Z). lia.
Defined.

(** * Race statistics and the results table *)

Lemma Qmin2_spec (a b : Q) :
  (Qmin2 a b = a \/ Qmin2 a b = b) /\ Qmin2 a b <= a /\ Qmin2 a b <= b.
Proof.
  unfold Qmin2. destruct (Qltb b a) eqn:E.
  - apply Qltb_true in E. repeat split; auto.
    + apply Qlt_le_weak. exact E.
    + apply Qle_refl.
  - apply Qltb_false in E. repeat split; auto. apply Qle_refl.
Qed.

Lemma Qmax2_spec (a b : Q) :
  (Qmax2 a b = a \/ Qmax2 a b = b) /\ a <= Qmax2 a b /\ b <= Qmax2 a b.
Proof.
  unfold Qmax2. destruct (Qltb a b) eqn:E.
  - apply Qltb_true in E. repeat split; auto.
    + apply Qlt_le_weak. exact E.
    + apply Qle_refl.
  - apply Qltb_false in E. repeat split; auto. apply Qle_refl.
Qed.

Lemma fold_min_spec (xs : list Q) : forall x,
  In (fold_left Qmin2 xs x) (x :: xs)
  /\ forall y, In y (x :: xs) -> fold_left Qmin2 xs x <= y.
Proof.
  induction xs as [|z xs IH]; intros x; simpl.
  - split; [left; reflexivity|]. intros y [<-|[]]. apply Qle_refl.
  - destruct (IH (Qmin2 x z)) as [Hin Hle].
    destruct (Qmin2_spec x z) as ([E|E] & Lx & Lz).
    + rewrite E in *. split.
      * destruct Hin as [H|H]; [left; exact H|right; right; exact H].
      * intros y [<-|[<-|Hy]].
        -- apply Hle. left. reflexivity.
        -- eapply Qle_trans; [apply Hle; left; reflexivity|exact Lz].
        -- apply Hle. right. exact Hy.
    + rewrite E in *. split.
      * destruct Hin as [H|H]; [right; left; exact H|right; right; exact H].
      * intros y [<-|[<-|Hy]].
        -- eapply Qle_trans; [apply Hle; left; reflexivity|exact Lx].
        -- apply Hle. left. reflexivity.
        -- apply Hle. right. exact Hy.
Qed.

Lemma fold_max_spec (xs : list Q) : forall x,
  In (fold_left Qmax2 xs x) (x :: xs)
  /\ forall y, In y (x :: xs) -> y <= fold_left Qmax2 xs x.
Proof.
  induction xs as [|z xs IH]; intros x; simpl.
  - split; [left; reflexivity|]. intros y [<-|[]]. apply Qle_refl.
  - destruct (IH (Qmax2 x z)) as [Hin Hle].
    destruct (Qmax2_spec x z) as ([E|E] & Lx & Lz).
    + rewrite E in *. split.
      * destruct Hin as [H|H]; [left; exact H|right; right; exact H].
      * intros y [<-|[<-|Hy]].
        -- apply Hle. left. reflexivity.
        -- eapply Qle_trans; [exact Lz|apply Hle; left; reflexivity].
        -- apply Hle. right. exact Hy.
    + rewrite E in *. split.
      * destruct Hin as [H|H]; [right; left; exact H|right; right; exact H].
      * intros y [<-|[<-|Hy]].
        -- eapply Qle_trans; [exact Lx|apply Hle; left; reflexivity].
        -- apply Hle. left. reflexivity.
        -- apply Hle. right. exact Hy.
Qed.

Lemma Qnat_succ (n : nat) : Qnat (S n) == Qnat n + 1.
Proof.
  unfold Qnat. rewrite Nat2Z.inj_succ, <- Z.add_1_r, inject_Z_plus.
  reflexivity.
Qed.

Lemma Qsum_lower (m : Q) (l : list Q) :
  (forall y, In y l -> m <= y) -> m * Qnat (List.length l) <= Qsum l.
Proof.
  induction l as [|x l IH]; intros H.
  - simpl. rewrite Qmult_0_r. apply Qle_refl.
  - cbn [List.length Qsum fold_right]. rewrite Qnat_succ.
    rewrite Qmult_plus_distr_r, Qmult_1_r, Qplus_comm.
    apply Qplus_le_compat.
    + apply H. left. reflexivity.
    + apply IH. intros y Hy. apply H. right. exact Hy.
Qed.

Lemma Qsum_upper (m : Q) (l : list Q) :
  (forall y, In y l -> y <= m) -> Qsum l <= m * Qnat (List.length l).
Proof.
  induction l as [|x l IH]; intros H.
  - simpl. rewrite Qmult_0_r. apply Qle_refl.
  - cbn [List.length Qsum fold_right]. rewrite Qnat_succ.
    rewrite Qmult_plus_distr_r, Qmult_1_r, (Qplus_comm (m * Qnat _)).
    apply Qplus_le_compat.
    + apply H. left. reflexivity.
    + apply IH. intros y Hy. apply H. right. exact Hy.
Qed.

Lemma present_inv {A} (s : list (option A)) (x : A) :
  In x (present s) -> In (Some x) s.
Proof.
  induction s as [|c s IH]; simpl; [tauto|].
  destruct c as [a|]; simpl.
  - intros [->|H]; [left; reflexivity|right; exact (IH H)].
  - intros H. right. exact (IH H).
Qed.

(** The least and the greatest of the values of a series; in exact
    arithmetic their mean lies between the two. *)
Lemma series_min_max (s : list (option Q)) :
  (exists x, In (Some x) s) ->
  exists lo hi,
    series_min s = Some lo /\ series_max s = Some hi
    /\ In (Some lo) s /\ In (Some hi) s
    /\ (forall t, In (Some t) s -> lo <= t /\ t <= hi)
    /\ lo <= exact_value (FMean (present s))
    /\ exact_value (FMean (present s)) <= hi.
Proof.
  intros (x0 & Hx0). apply present_in in Hx0.
  unfold series_min, series_max.
  destruct (present s) as [|x xs] eqn:P; [destruct Hx0|].
  destruct (fold_min_spec xs x) as [MinIn MinLe].
  destruct (fold_max_spec xs x) as [MaxIn MaxLe].
  assert (0 < Qnat (List.length (x :: xs))) as Pos
    by (apply Qnat_pos; simpl; lia).
  eexists. eexists.
  split; [reflexivity|]. split; [reflexivity|].
  split; [apply present_inv; rewrite P; exact MinIn|].
  split; [apply present_inv; rewrite P; exact MaxIn|].
  split; [|split].
  - intros t Ht. apply present_in in Ht. rewrite P in Ht. auto.
  - cbn [exact_value].
    apply Qle_shift_div_l; [exact Pos|]. apply Qsum_lower. exact MinLe.
  - cbn [exact_value].
    apply Qle_shift_div_r; [exact Pos|]. apply Qsum_upper. exact MaxLe.
Qed.

Lemma in_map_cell {A} (f : Row -> option A) (l : list Row) (x : A) :
  In (Some x) (map f l) <-> exists r, In r l /\ f r = Some x.
Proof.
  rewrite in_map_iff. split; intros (r & H1 & H2); exists r; auto.
Qed.



Lemma sublist_refl {A} (l : list A) : sublist l l.
Proof. induction l; constructor; assumption. Qed.

Lemma sublist_filter {A} (p : A -> bool) (l : list A) : sublist (filter p l) l.
Proof.
  induction l as [|a l IH]; simpl; [constructor|].
  destruct (p a); constructor; exact IH.
Qed.

Lemma sublist_firstn_of {A} (l m : list A) :
  sublist l m -> forall n, sublist (firstn n l) m.
Proof.
  induction 1 as [|x l m H IH|x l m H IH]; intros n.
  - destruct n; constructor.
  - destruct n; simpl.
    + constructor. exact (IH 0%nat).
    + constructor. apply IH.
  - constructor. apply IH.
Qed.

Lemma filtered_df_all (df : DataFrame) (lo hi : Q) :
  has_column col_Race_Time df = true ->
  filtered_df df lo hi None
  = Ok {| columns := columns df;
          rows := filter (in_time_range lo hi) (rows df) |}.
Proof.
  intros H. unfold filtered_df, getcol. rewrite H. cbn [rbind].
  rewrite map_map.
  change (map (fun x => cell_ge (Race_Time_s x) lo && cell_le (Race_Time_s x) hi)
            (rows df))
    with (map (in_time_range lo hi) (rows df)).
  rewrite boolean_index_map. reflexivity.
Qed.

Lemma filtered_df_top (df : DataFrame) (lo hi : Q) (n : nat) :
  has_column col_Race_Time df = true ->
  filtered_df df lo hi (Some n)
  = Ok {| columns := columns df;
          rows := firstn n (filter (in_time_range lo hi) (rows df)) |}.
Proof.
  intros H. pose proof (filtered_df_all df lo hi H) as F.
  unfold filtered_df, getcol in *. rewrite H in *. cbn [rbind] in *.
  inversion F as [F']. unfold head. cbn [columns rows]. rewrite F'.
  reflexivity.
Qed.

Lemma in_time_range_iff (lo hi : Q) (r : Row) :
  in_time_range lo hi r = true
  <-> exists t, Race_Time_s r = Some t /\ lo <= t /\ t <= hi.
Proof.
  unfold in_time_range, cell_ge, cell_le.
  destruct (Race_Time_s r) as [t|].
  - rewrite andb_true_iff, !Qle_bool_iff. split.
    + intros [A B]. exists t. auto.
    + intros (t' & E & A & B). inversion E. subst. auto.
  - split; [discriminate|]. intros (t & E & _). discriminate.
Qed.

(** X16.  The complete results table keeps records of the frame in their
    order, and only records whose race time lies between the two slider
    values (bounds included; a record without a race time is never kept).
    With "All" every such record is kept; with "Show Top" n the first n of
    them are. *)
Theorem results_table_filter (df : DataFrame) (lo hi : Q)
  (show_top : option nat) :
  has_column col_Race_Time df = true ->
  exists out,
    filtered_df df lo hi show_top = Ok out
    /\ columns out = columns df
    /\ sublist (rows out) (rows df)
    /\ (forall r, In r (rows out) ->
          exists t, Race_Time_s r = Some t /\ lo <= t /\ t <= hi)
    /\ (show_top = None ->
        forall r t, In r (rows df) -> Race_Time_s r = Some t ->
          lo <= t -> t <= hi -> In r (rows out))
    /\ (forall n, show_top = Some n ->
          rows out = firstn n (filter (in_time_range lo hi) (rows df))
          /\ (List.length (rows out) <= n)%nat).
Proof.
  intros H. destruct show_top as [n|].
  - rewrite (filtered_df_top df lo hi n H). eexists.
    split; [reflexivity|]. cbn [columns rows]. repeat split.
    + apply sublist_firstn_of. apply sublist_filter.
    + intros r Hr. apply firstn_In in Hr. apply filter_In in Hr.
      apply in_time_range_iff. tauto.
    + discriminate.
    + inversion H0. reflexivity.
    + inversion H0. apply firstn_le_length.
  - rewrite (filtered_df_all df lo hi H). eexists.
    split; [reflexivity|]. cbn [columns rows]. repeat split.
    + apply sublist_filter.
    + intros r Hr. apply filter_In in Hr. apply in_time_range_iff. tauto.
    + intros _ r t Hin Ht Hlo Hhi. apply filter_In. split; [exact Hin|].
      apply in_time_range_iff. eauto.
    + discriminate.
    + discriminate.
Qed.

Lemma results_table_filter_witness :
  exists out,
    filtered_df df_podium 10.5 12 (Some 1%nat) = Ok out
    /\ columns out = columns df_podium
    /\ sublist (rows out) (rows df_podium)
    /\ (forall r, In r (rows out) ->
          exists t, Race_Time_s r = Some t /\ 10.5 <= t /\ t <= 12)
    /\ (Some 1%nat = None ->
        forall r t, In r (rows df_podium) -> Race_Time_s r = Some t ->
          10.5 <= t -> t <= 12 -> In r (rows out))
    /\ (forall n, Some 1%nat = Some n ->
          rows out
          = firstn n (filter (in_time_range 10.5 12) (rows df_podium))
          /\ (List.length (rows out) <= n)%nat).
Proof.
  apply (results_table_filter df_podium 10.5 12 (Some 1%nat)).
  reflexivity.
Defined.

(** X17.  With both sliders left at their defaults (the least and the
    greatest race time of the frame) and "All", the complete results table
    lists exactly the records that have a race time, in order; a record
    without one is left out, and a frame in which every record has one is
    listed whole. *)
Theorem default_sliders_list_timed_records (df : DataFrame) (lo hi : Q) :
  has_column col_Race_Time df = true ->
  series_min (map Race_Time_s (rows df)) = Some lo ->
  series_max (map Race_Time_s (rows df)) = Some hi ->
  filtered_df df lo hi None
  = Ok {| columns := columns df;
          rows := filter (fun r => is_some (Race_Time_s r)) (rows df) |}
  /\ ((forall r, In r (rows df) -> Race_Time_s r <> None) ->
      filtered_df df lo hi None = Ok df).
Proof.
  intros H Hlo Hhi.
  assert (exists x, In (Some x) (map Race_Time_s (rows df))) as Hex.
  { unfold series_min in Hlo.
    destruct (present (map Race_Time_s (rows df))) as [|x xs] eqn:P;
      [discriminate|].
    exists x. apply present_inv. rewrite P. left. reflexivity. }
  destruct (series_min_max _ Hex)
    as (lo' & hi' & Hlo' & Hhi' & _ & _ & Bounds & _).
  assert (lo' = lo) as -> by congruence.
  assert (hi' = hi) as -> by congruence.
  assert (filter (in_time_range lo hi) (rows df)
          = filter (fun r => is_some (Race_Time_s r)) (rows df)) as F.
  { apply filter_ext_in. intros r Hr.
    destruct (Race_Time_s r) as [t|] eqn:E.
    - simpl. apply in_time_range_iff. exists t. split; [exact E|].
      apply Bounds. apply in_map_cell. eauto.
    - unfold in_time_range. rewrite E. reflexivity. }
  rewrite (filtered_df_all df lo hi H), F. split; [reflexivity|].
  intros Hall. f_equal. destruct df as [cols rws]. cbn [columns rows] in *.
  f_equal. clear -Hall. induction rws as [|r rws IH]; simpl; [reflexivity|].
  destruct (Race_Time_s r) eqn:E.
  - simpl. f_equal. apply IH. intros r' Hr'. apply Hall. right. exact Hr'.
  - exfalso. apply (Hall r); [left; reflexivity|exact E].
Qed.

Lemma default_sliders_list_timed_records_witness :
  filtered_df (frame [ace; no_time; bob]) 10 11 None
  = Ok {| columns := columns (frame [ace; no_time; bob]);
          rows := [normalize_record ace; normalize_record bob] |}.
Proof.
  exact (proj1 (default_sliders_list_timed_records
                  (frame [ace; no_time; bob]) 10 11
                  eq_refl eq_refl eq_refl)).
Defined.





(** * Search with a plain query *)

Lemma prefix_ci_iff (q : string) : forall u,
  prefix_ci q u = true
  <-> exists m b, u = (m ++ b)%string /\ lower_string m = lower_string q.
Proof.
  induction q as [|a q IH]; intros u.
  - simpl. split; [|reflexivity]. intros _.
    exists EmptyString, u. split; reflexivity.
  - destruct u as [|c u]; simpl.
    + split; [discriminate|]. intros (m & b & Hu & Hl).
      destruct m; [discriminate Hl|discriminate Hu].
    + rewrite andb_true_iff, Ascii.eqb_eq, IH. split.
      * intros (Hc & m & b & -> & Hl). exists (String c m), b.
        split; [reflexivity|]. unfold lower_string in *. simpl.
        rewrite Hl, Hc. reflexivity.
      * intros (m & b & Hu & Hl). destruct m as [|c' m]; [discriminate Hl|].
        simpl in Hu. inversion Hu. subst c'.
        unfold lower_string in *. simpl in Hl. inversion Hl.
        split; [congruence|]. exists m, b. split; congruence.
Qed.

Lemma substring_ci_iff (q u : string) :
  substring_ci q u = true
  <-> exists a m b,
        u = (a ++ m ++ b)%string /\ lower_string m = lower_string q.
Proof.
  induction u as [|c u IH]; simpl; rewrite orb_true_iff, prefix_ci_iff.
  - split.
    + intros [(m & b & Hu & Hl)|H]; [|discriminate].
      exists EmptyString, m, b. auto.
    + intros (a & m & b & Hu & Hl). left.
      destruct a; [|discriminate Hu]. exists m, b. auto.
  - rewrite IH. split.
    + intros [(m & b & Hu & Hl)|(a & m & b & Hu & Hl)].
      * exists EmptyString, m, b. auto.
      * exists (String c a), m, b. rewrite Hu. auto.
    + intros (a & m & b & Hu & Hl). destruct a as [|c' a].
      * left. exists m, b. auto.
      * right. simpl in Hu. inversion Hu. exists a, m, b. auto.
Qed.

(** X19.  For a query without regular-expression characters the search
    returns, in the order of the frame, exactly the records whose username
    contains the query up to the case of letters; two such queries that
    differ only in case return the same records. *)
Theorem plain_query_finds_substrings (df : DataFrame) (q : string) :
  literal_query q = true ->
  (exists found,
     search df q = Some found
     /\ columns found = columns df
     /\ sublist (rows found) (rows df)
     /\ forall r, In r (rows found)
          <-> In r (rows df)
              /\ exists u a m b,
                   Username r = Some u
                   /\ u = (a ++ m ++ b)%string
                   /\ lower_string m = lower_string q)
  /\ (forall q', literal_query q' = true ->
        lower_string q' = lower_string q -> search df q' = search df q).
Proof.
  intros Hq.
  assert (forall q0 r, username_contains q0 r = true
            <-> exists u a m b,
                  Username r = Some u
                  /\ u = (a ++ m ++ b)%string
                  /\ lower_string m = lower_string q0) as Contains.
  { intros q0 r. unfold username_contains.
    destruct (Username r) as [u|].
    - rewrite substring_ci_iff. split.
      + intros (a & m & b & Hu & Hl). exists u, a, m, b. auto.
      + intros (u' & a & m & b & E & Hu & Hl). inversion E. subst u'.
        exists a, m, b. auto.
    - split; [discriminate|]. intros (u & a & m & b & E & _). discriminate. }
  split.
  - rewrite (search_literal df q Hq). eexists. split; [reflexivity|].
    cbn [columns rows]. split; [reflexivity|].
    split; [apply sublist_filter|].
    intros r. rewrite filter_In, Contains. reflexivity.
  - intros q' Hq' Hl.
    rewrite (search_literal df q Hq), (search_literal df q' Hq').
    do 2 f_equal. apply filter_ext. intros r.
    apply eq_true_iff_eq. rewrite !Contains, Hl. reflexivity.
Qed.

Lemma plain_query_finds_substrings_witness :
  search df_podium "AC" = search df_podium "ac".
Proof.
  apply (proj2 (plain_query_finds_substrings df_podium "ac" eq_refl));
    reflexivity.
Defined.

Lemma filter_nil_iff {A} (p : A -> bool) (l : list A) :
  filter p l = [] <-> forall x, In x l -> p x = false.
Proof.
  induction l as [|a l IH]; simpl.
  - split; [intros _ x []|reflexivity].
  - destruct (p a) eqn:E.
    + split; [discriminate|]. intros H.
      rewrite (H a (or_introl eq_refl)) in E. discriminate.
    + rewrite IH. split.
      * intros H x [<-|Hx]; auto.
      * intros H x Hx. apply H. right. exact Hx.
Qed.

(** X20.  For a query without regular-expression characters that is not
    empty, "Find Your Rank" answers without raising when no username
    contains the query: with the "no racer" (raced) or "no participant"
    (pending) notice.  When some do and the card columns exist, it shows
    one card per matching record, in frame order. *)
Theorem find_your_rank_plain_query (df : DataFrame) (b : bool) (q : string) :
  literal_query q = true ->
  q <> EmptyString ->
  ((forall r, In r (rows df) -> username_contains q r = false) ->
   find_your_rank df b q
   = Some (Ok (if b then NoRacerFound else NoParticipantFound)))
  /\ (forall r0, In r0 (rows df) -> username_contains q r0 = true ->
      (has_columns card_columns df = true ->
       find_your_rank df true q
       = Some (Ok (SearchResults
                     (map (fun user => (user, performance_comparison df user))
                        (filter (username_contains q) (rows df))))))
      /\ (has_columns [col_Username; col_Full_Name; col_Rank] df = true ->
          find_your_rank df false q
          = Some (Ok (ParticipantFound
                        (filter (username_contains q) (rows df)))))).
Proof.
  intros Hq Hne.
  assert (String.eqb q EmptyString = false) as Hneb
    by (apply String.eqb_neq; exact Hne).
  split.
  - intros Hnone. unfold find_your_rank.
    rewrite Hneb, (search_literal df q Hq). cbn [rows].
    rewrite (proj2 (filter_nil_iff _ _) Hnone). destruct b; reflexivity.
  - intros r0 Hin Hm.
    assert (filter (username_contains q) (rows df) <> []) as Hsome.
    { intros E. rewrite (proj1 (filter_nil_iff _ _) E r0 Hin) in Hm.
      discriminate. }
    split; intros Hc; unfold find_your_rank;
      rewrite Hneb, (search_literal df q Hq); cbn [rows];
      destruct (filter (username_contains q) (rows df)) as [|u us];
      try congruence; rewrite Hc; reflexivity.
Qed.

Lemma find_your_rank_plain_query_witness :
  find_your_rank df_podium true "zzzznomatch" = Some (Ok NoRacerFound).
Proof.
  apply (proj1 (find_your_rank_plain_query df_podium true "zzzznomatch"
                  eq_refl ltac:(discriminate))).
  intros r [<-|[<-|[<-|[]]]]; reflexivity.
Defined.

(** X21.  The participant table lists records of the frame in their
    order: all of them when the search term is empty, exactly those whose
    username contains a plain search term otherwise, cut to the first n
    for "Show Top" n. *)
Theorem participants_table_filter (df : DataFrame) (term : string)
  (show_top : option nat) :
  literal_query term = true ->
  exists out,
    participants_filter df term show_top = Some out
    /\ columns out = columns df
    /\ rows out
       = (let listed :=
            if String.eqb term EmptyString then rows df
            else filter (username_contains term) (rows df) in
          match show_top with
          | Some n => firstn n listed
          | None => listed
          end)
    /\ sublist (rows out) (rows df)
    /\ (term = EmptyString -> show_top = None -> out = df)
    /\ (term <> EmptyString -> show_top = None ->
        forall r, In r (rows out)
                  <-> In r (rows df) /\ username_contains term r = true)
    /\ (forall n, show_top = Some n -> (List.length (rows out) <= n)%nat).
Proof.
  intros Hq.
  set (base := if String.eqb term EmptyString then rows df
               else filter (username_contains term) (rows df)).
  assert (participants_filter df term show_top
          = Some {| columns := columns df;
                    rows := match show_top with
                            | Some n => firstn n base
                            | None => base
                            end |}) as Shape.
  { unfold participants_filter, base.
    destruct (String.eqb term EmptyString);
      [|rewrite (search_literal df term Hq)];
      destruct show_top; try reflexivity.
    destruct df; reflexivity. }
  assert (sublist base (rows df)) as Sb.
  { unfold base. destruct (String.eqb term EmptyString);
      [apply sublist_refl|apply sublist_filter]. }
  eexists. split; [exact Shape|]. cbn [columns rows].
  split; [reflexivity|].
  split; [reflexivity|].
  split. { destruct show_top; [apply sublist_firstn_of|]; exact Sb. }
  split. { intros -> ->. unfold base. cbn. destruct df; reflexivity. }
  split.
  { intros Hne -> r. unfold base.
    rewrite (proj2 (String.eqb_neq _ _) Hne). apply filter_In. }
  intros n ->. apply firstn_le_length.
Qed.

Lemma participants_table_filter_witness :
  exists out,
    participants_filter df_pending "bo" (Some 25%nat) = Some out
    /\ columns out = columns df_pending
    /\ rows out
       = (let listed :=
            if String.eqb "bo" EmptyString then rows df_pending
            else filter (username_contains "bo") (rows df_pending) in
          match Some 25%nat with
          | Some n => firstn n listed
          | None => listed
          end)
    /\ sublist (rows out) (rows df_pending)
    /\ ("bo"%string = EmptyString -> Some 25%nat = None -> out = df_pending)
    /\ ("bo"%string <> EmptyString -> Some 25%nat = None ->
        forall r, In r (rows out)
                  <-> In r (rows df_pending)
                      /\ username_contains "bo" r = true)
    /\ (forall n, Some 25%nat = Some n -> (List.length (rows out) <= n)%nat).
Proof.
  apply (participants_table_filter df_pending "bo" (Some 25%nat)).
  reflexivity.
Defined.

(** * The fun facts section *)

Lemma fun_fact_ok (f : FunFact) (df : DataFrame) :
  has_column (fact_column f) df = true ->
  (exists r0, In r0 (rows df) /\ fact_value f r0 <> None) ->
  exists r, fun_fact f df = Ok r /\ In r (rows df).
Proof.
  intros Hcol (r0 & Hin0 & Hv0).
  assert (exists x, In (Some x) (map (fact_value f) (rows df))) as Hs.
  { destruct (fact_value f r0) as [x|] eqn:E; [|congruence].
    exists x. rewrite <- E. apply in_map. exact Hin0. }
  destruct (idxmax_first_max _ Hs) as (k & m & Hk & Hnth & _).
  rewrite nth_error_map in Hnth.
  destruct (nth_error (rows df) k) as [r|] eqn:Hr; [|discriminate].
  exists r. split; [|exact (nth_error_In _ _ Hr)].
  unfold fun_fact, getcol. rewrite Hcol. cbn [rbind]. rewrite Hk.
  cbn [rbind]. unfold loc. rewrite Hr. reflexivity.
Qed.

Lemma fun_fact_fails (f : FunFact) (df : DataFrame) :
  (forall r, In r (rows df) -> fact_value f r = None) ->
  exists e, fun_fact f df = Raise e.
Proof.
  intros H. unfold fun_fact, getcol.
  destruct (has_column (fact_column f) df); cbn [rbind]; [|eauto].
  unfold idxmax. rewrite idxmax_from_all_nan; [cbn [rbind]; eauto|].
  intros c Hc. apply in_map_iff in Hc. destruct Hc as (r & <- & Hr).
  apply H. exact Hr.
Qed.

Lemma has_column_head (c : Column) (n : nat) (df : DataFrame) :
  has_column c (head n df) = has_column c df.
Proof. reflexivity. Qed.

Lemma all_columns_split (df : DataFrame) :
  has_columns all_columns df
  = has_columns scatter_columns df && has_column col_Distance_Covered df.
Proof.
  unfold has_columns, all_columns, scatter_columns. cbn [forallb].
  destruct (has_column col_Username df), (has_column col_Full_Name df),
    (has_column col_Race_Time df), (has_column col_Speed df),
    (has_column col_Boosts_Used df), (has_column col_Collisions df),
    (has_column col_Distance_Covered df), (has_column col_Rank df);
    reflexivity.
Qed.

(** On a raced frame the statements before the fun facts raise [KeyError]
    when one of the seven columns used up to the scatter plot is missing,
    then [ValueError] when a boost count among the first fifty records is
    missing or negative, then [KeyError] when the distance column is
    missing, and pass otherwise. *)
Lemma raced_page_spec (df : DataFrame) :
  has_race_data df = Ok true ->
  raced_page df
  = if has_columns scatter_columns df then
      if forallb marker_size_ok (rows (head 50 df)) then
        if has_column col_Distance_Covered df then Ok tt else Raise KeyError
      else Raise ValueError
    else Raise KeyError.
Proof.
  intros H. apply has_race_data_true in H. destruct H as [Ht (r & Hin & Hr)].
  assert (isna_all (map Race_Time_s (rows df)) = false) as Hna
    by (apply isna_all_false; eauto).
  assert ((0 <? len df)%nat = true) as Hlen.
  { unfold len. destruct (rows df); [destruct Hin|reflexivity]. }
  unfold raced_page, sidebar_statistics, winner, create_ranking_chart,
    create_speed_vs_time_scatter, select_columns, getcol, has_columns,
    scatter_columns.
  cbn [forallb andb rbind]. rewrite ?has_column_head, Hlen, ?Ht.
  cbn [andb rbind]. rewrite Hna.
  destruct (forallb marker_size_ok (rows (head 50 df))).
  - destruct (rows df) as [|r0 rest]; [destruct Hin|].
    cbn [forallb andb negb rbind].
    destruct (has_column col_Username df), (has_column col_Full_Name df),
      (has_column col_Speed df), (has_column col_Boosts_Used df),
      (has_column col_Collisions df), (has_column col_Distance_Covered df),
      (has_column col_Rank df); reflexivity.
  - destruct (rows df) as [|r0 rest]; [destruct Hin|].
    cbn [forallb andb negb rbind].
    destruct (has_column col_Username df), (has_column col_Full_Name df),
      (has_column col_Speed df), (has_column col_Boosts_Used df),
      (has_column col_Collisions df), (has_column col_Distance_Covered df),
      (has_column col_Rank df); reflexivity.
Qed.

Lemma fun_fact_In (f : FunFact) (df : DataFrame) (r : Row) :
  fun_fact f df = Ok r -> In r (rows df).
Proof.
  unfold fun_fact, getcol.
  destruct (has_column (fact_column f) df); cbn [rbind]; [|discriminate].
  destruct (idxmax (map (fact_value f) (rows df))) as [i|e]; cbn [rbind];
    [|discriminate].
  unfold loc. destruct (nth_error (rows df) i) eqn:E; [|discriminate].
  intros H. inversion H. subst. exact (nth_error_In _ _ E).
Qed.

(** X22.  [main] shows the fun facts only on a frame that is not empty,
    is classified as raced, has all eight columns and has a boost count
    that is not negative in each of its first fifty records; they are then
    the four superlative records, each a record of the frame.  On such a
    frame whose records all carry boosts, collisions, distance and speed,
    they are shown.  On a raced frame [main] raises [KeyError] when one of
    the seven columns used up to the scatter plot is missing, [ValueError]
    when these exist and a boost count among the first fifty records is
    missing or negative, and [KeyError] when only the distance column is
    missing; it raises as well when one of the four fields is missing from
    every record. *)
Theorem fun_facts_section_outcome (df : DataFrame) :
  (forall b c d s,
     main_fun_facts df = Ok (Some (b, c, d, s)) ->
     df_empty df = false
     /\ has_race_data df = Ok true
     /\ has_columns all_columns df = true
     /\ forallb marker_size_ok (rows (head 50 df)) = true
     /\ fastest_booster df = Ok b /\ crash_king df = Ok c
     /\ distance_leader df = Ok d /\ speed_demon df = Ok s
     /\ In b (rows df) /\ In c (rows df) /\ In d (rows df) /\ In s (rows df))
  /\ (df_empty df = false -> has_race_data df = Ok true ->
      (has_columns all_columns df = true ->
       forallb marker_size_ok (rows (head 50 df)) = true ->
       (forall r f, In r (rows df) -> fact_value f r <> None) ->
       exists b c d s, main_fun_facts df = Ok (Some (b, c, d, s)))
      /\ (has_columns scatter_columns df = false ->
          main_fun_facts df = Raise KeyError)
      /\ (has_columns scatter_columns df = true ->
          forallb marker_size_ok (rows (head 50 df)) = false ->
          main_fun_facts df = Raise ValueError)
      /\ (has_columns scatter_columns df = true ->
          forallb marker_size_ok (rows (head 50 df)) = true ->
          has_column col_Distance_Covered df = false ->
          main_fun_facts df = Raise KeyError)
      /\ (forall f, (forall r, In r (rows df) -> fact_value f r = None) ->
            exists e, main_fun_facts df = Raise e)).
Proof.
  split.
  - intros b c d s. unfold main_fun_facts.
    destruct (df_empty df); [discriminate|].
    destruct (has_race_data df) as [[|]|e] eqn:Hr; cbn [rbind];
      [| destruct (pending_page df); discriminate | discriminate].
    rewrite (raced_page_spec df Hr), (all_columns_split df).
    destruct (has_columns scatter_columns df); cbn [rbind andb];
      [|discriminate].
    destruct (forallb marker_size_ok (rows (head 50 df))); cbn [rbind];
      [|discriminate].
    destruct (has_column col_Distance_Covered df); cbn [rbind];
      [|discriminate].
    destruct (fastest_booster df) as [b'|e1] eqn:E1; cbn [rbind];
      [|discriminate].
    destruct (crash_king df) as [c'|e2] eqn:E2; cbn [rbind]; [|discriminate].
    destruct (distance_leader df) as [d'|e3] eqn:E3; cbn [rbind];
      [|discriminate].
    destruct (speed_demon df) as [s'|e4] eqn:E4; cbn [rbind]; [|discriminate].
    intros H. inversion H. subst.
    repeat split; auto; eapply fun_fact_In; eassumption.
  - intros He Hr. unfold main_fun_facts. rewrite He, Hr. cbn [rbind].
    rewrite (raced_page_spec df Hr).
    unfold fastest_booster, crash_king, distance_leader, speed_demon.
    split; [|split; [|split; [|split]]].
    + intros Hc Hsz Hall. rewrite Hsz.
      pose proof Hc as Hc'. rewrite all_columns_split in Hc'.
      apply andb_true_iff in Hc'. destruct Hc' as [-> ->]. cbn [rbind].
      apply has_race_data_true in Hr. destruct Hr as [_ (r0 & Hin0 & _)].
      assert (forall f, exists r, fun_fact f df = Ok r) as Facts.
      { intros f. destruct (fun_fact_ok f df) as (r & Hf & _).
        - unfold has_columns, all_columns in Hc. cbn [forallb] in Hc.
          repeat (apply andb_true_iff in Hc; destruct Hc as [? Hc]).
          destruct f; assumption.
        - exists r0. split; [exact Hin0|]. apply Hall. exact Hin0.
        - eauto. }
      destruct (Facts MostBoostsUsed) as [b ->].
      destruct (Facts MostCollisions) as [c ->].
      destruct (Facts LongestDistance) as [d ->].
      destruct (Facts HighestSpeed) as [s ->].
      exists b, c, d, s. reflexivity.
    + intros ->. reflexivity.
    + intros -> ->. reflexivity.
    + intros -> -> ->. reflexivity.
    + intros f Hnone. destruct (fun_fact_fails f df Hnone) as [e Hf].
      destruct (has_columns scatter_columns df); cbn [rbind]; [|eauto].
      destruct (forallb marker_size_ok (rows (head 50 df))); cbn [rbind];
        [|eauto].
      destruct (has_column col_Distance_Covered df); cbn [rbind]; [|eauto].
      destruct (fun_fact MostBoostsUsed df) as [b|e1] eqn:E1; cbn [rbind];
        [|eauto].
      destruct (fun_fact MostCollisions df) as [c|e2] eqn:E2; cbn [rbind];
        [|eauto].
      destruct (fun_fact LongestDistance df) as [d|e3] eqn:E3; cbn [rbind];
        [|eauto].
      destruct (fun_fact HighestSpeed df) as [s|e4] eqn:E4; cbn [rbind];
        [|eauto].
      destruct f; congruence.
Qed.

Lemma fun_facts_section_outcome_witness :
  exists b c d s, main_fun_facts df_podium = Ok (Some (b, c, d, s)).
Proof.
  apply (proj1 (proj2 (fun_facts_section_outcome df_podium)
                  eq_refl eq_refl)).
  - reflexivity.
  - reflexivity.
  - intros r f [<-|[<-|[<-|[]]]]; destruct f; discriminate.
Defined.

(** The frame of the round-trip example has no full name: [main] raises at
    the winner card, before the fun facts. *)
Example fun_facts_without_full_name :
  main_fun_facts (fst (snd (load_race_data fs_pilot1))) = Raise KeyError.
Proof. reflexivity. Qed.

(** A record without a boost count stops the scatter plot, and a frame
    without any distance stops the results table. *)
Example fun_facts_without_boost_count :
  main_fun_facts (frame [ace; no_boosts]) = Raise ValueError.
Proof. reflexivity. Qed.

Example fun_facts_without_distance :
  main_fun_facts (frame [no_distance]) = Raise KeyError.
Proof. reflexivity. Qed.

(** A participant export whose usernames are all numbers: the accessor of
    line 138 raises and the load returns the empty frame. *)
Example numeric_usernames_fail :
  load_race_data fs_numeric_usernames
  = ([FoundRaceFiles 0; ErrorLoadingData AttributeError],
     (empty_frame, None)).
Proof. reflexivity. Qed.
